(** * openclaw-cli: the line parser, the tail engine and the backfill reader

    A shallow embedding of [openclaw_cli/parse.py], [openclaw_cli/paths.py]
    and [openclaw_cli/commands/tail.py], followed by the properties of the
    specification that can be settled on it.

    Conventions of the embedding.
    - A Python [str] is a list of code points ([N]); [lit] turns an ASCII
      literal into one.  String methods ([strip], [split], [join], [find],
      [replace], slices) are written out below with Python's semantics.
    - A decoded JSON document is a value of [json]; a Python [dict] is an
      association list in insertion order whose keys are distinct (what
      [json.loads] builds).
    - Exceptions are explicit: a computation returns [Ret v] or [Raise e].
      An exception a [try] block of the source catches is handled at the
      place the source handles it; every other one propagates.
    - The three library routines the program calls but does not define
      ([json.loads], [datetime.fromisoformat] and [bytes.decode]) are the
      fields of the class [Library].
    - A file opened in text mode is the text its text layer presents,
      newlines translated to "\n"; the cursor of a handle counts the
      characters consumed.  A file opened in binary mode is its bytes.
    - The clock is an argument ([now]): the reading [datetime.now] gives
      during the call.
    - Printing a record is rendering it with [format_message] and handing
      the line to the console.  The engine and the backfill are modelled
      by the records they print, in order; a record the renderer raises on
      is not printed, and the exception propagates.  A [rich] [Text] is
      the list of the pieces appended to it, each with its style.
    - What the renderer asks of its surroundings (the width of the
      console, the local time of an instant, [str] and [format] of a
      value) are the fields of the class [Console]. *)

From Stdlib Require Import String Ascii.
From Stdlib Require Import List ZArith NArith Lia Bool.
From Stdlib.Strings Require Import Byte.
From Stdlib Require Import Permutation Sorted.
Import ListNotations.

Set Implicit Arguments.
Local Open Scope Z_scope.

(** ** Python strings *)

Module PyStr.

Definition char := N.
Definition str := list char.

Definition lit (s : string) : str :=
  List.map N_of_ascii (list_ascii_of_string s).

Definition NL : char := 10%N.

Fixpoint eqb (a b : str) : bool :=
  match a, b with
  | [], [] => true
  | x :: a', y :: b' => N.eqb x y && eqb a' b'
  | _, _ => false
  end.

(** [str.isspace] for one code point: the characters [str.strip()] removes
    (CPython's [_PyUnicode_IsWhitespace]). *)
Definition isspace (c : char) : bool :=
  ((9 <=? c) && (c <=? 13) || (28 <=? c) && (c <=? 32) || (c =? 133)
   || (c =? 160) || (c =? 5760) || (8192 <=? c) && (c <=? 8202)
   || (c =? 8232) || (c =? 8233) || (c =? 8239) || (c =? 8287)
   || (c =? 12288))%N.

Fixpoint lstrip (s : str) : str :=
  match s with
  | [] => []
  | c :: s' => if isspace c then lstrip s' else s
  end.

(** [rstrip] drops the trailing run of whitespace: a character is kept when
    something is kept after it, or when it is not whitespace itself. *)
Fixpoint rstrip (s : str) : str :=
  match s with
  | [] => []
  | c :: s' =>
      match rstrip s' with
      | [] => if isspace c then [] else [c]
      | r => c :: r
      end
  end.

Definition strip (s : str) : str := rstrip (lstrip s).

(** [s.split(sep)] for a one-character separator: never empty. *)
Fixpoint split (sep : char) (s : str) : list str :=
  match s with
  | [] => [[]]
  | c :: s' =>
      if N.eqb c sep then [] :: split sep s'
      else match split sep s' with
           | [] => [[c]]
           | l :: ls => (c :: l) :: ls
           end
  end.

(** [sep.join(parts)] *)
Fixpoint join (sep : str) (parts : list str) : str :=
  match parts with
  | [] => []
  | [p] => p
  | p :: ps => p ++ sep ++ join sep ps
  end.

Fixpoint startswith (p s : str) : bool :=
  match p, s with
  | [], _ => true
  | x :: p', y :: s' => N.eqb x y && startswith p' s'
  | _ :: _, [] => false
  end.

(** [s.find(sub)]: the lowest index at which [sub] occurs, [None] for -1. *)
Fixpoint find (sub s : str) : option nat :=
  if startswith sub s then Some 0%nat
  else match s with
       | [] => None
       | _ :: s' => option_map S (find sub s')
       end.

(** [s.replace(old, new)] for a one-character [old]. *)
Fixpoint replace (old : char) (new : str) (s : str) : str :=
  match s with
  | [] => []
  | c :: s' =>
      if N.eqb c old then new ++ replace old new s'
      else c :: replace old new s'
  end.

(** Python slices [l[i:]] and [l[:j]] on any sequence, negative indices
    counting from the end and both ends clamped. *)
Definition clamp_index (len i : Z) : nat :=
  Z.to_nat (if i <? 0 then Z.max 0 (len + i) else Z.min i len).

Definition slice_from {A} (i : Z) (l : list A) : list A :=
  skipn (clamp_index (Z.of_nat (length l)) i) l.

Definition slice_to {A} (j : Z) (l : list A) : list A :=
  firstn (clamp_index (Z.of_nat (length l)) j) l.

(** [a < b] on strings: the order of [sorted] on names, code point by
    code point, a proper prefix first. *)
Fixpoint ltb (a b : str) : bool :=
  match a, b with
  | _, [] => false
  | [], _ :: _ => true
  | x :: a', y :: b' =>
      if N.ltb x y then true
      else if N.eqb x y then ltb a' b' else false
  end.

End PyStr.
Import PyStr.

(** ** Decoded JSON values and Python exceptions *)

Set Warnings "-register-all".

(** The three floats that are no numbers of JSON proper but that
    [json.loads] accepts: NaN, Infinity and -Infinity. *)
Inductive nonfinite := NaN | PosInf | NegInf.

Inductive number :=
| NInt (z : Z)
| NFloat (num : Z) (den : positive)
| NNonFinite (x : nonfinite).

Inductive json :=
| JNull
| JBool (b : bool)
| JNum (n : number)
| JStr (s : str)
| JList (l : list json)
| JDict (d : list (str * json)).

Inductive exn := AttributeError | TypeError | OverflowError.

Inductive outcome (A : Type) :=
| Ret (a : A)
| Raise (e : exn).
Arguments Ret {A} a.
Arguments Raise {A} e.

Definition bind {A B} (m : outcome A) (k : A -> outcome B) : outcome B :=
  match m with
  | Ret a => k a
  | Raise e => Raise e
  end.

Notation "x <- m ;; k" := (bind m (fun x => k))
  (at level 61, m at next level, right associativity).

(** ** parse.py *)

Module Parse.

Record datetime := {
  wall : Z;            (* the calendar fields, in microseconds *)
  tzinfo : option Z    (* the UTC offset in microseconds; None: naive *)
}.

Definition aware (t : datetime) : bool :=
  match tzinfo t with Some _ => true | None => false end.

Class Library := {
  (* json.loads: None when it raises JSONDecodeError *)
  json_loads : str -> option json;
  (* datetime.fromisoformat: None when it raises ValueError *)
  fromisoformat : str -> option datetime;
  (* bytes.decode("utf-8", errors="replace"), which never raises *)
  decode_utf8_replace : list byte -> str
}.

Record ParsedMessage := {
  timestamp : datetime;
  role : str;
  agent : str;
  session_id : str;
  model : json;        (* JNull is Python's None *)
  provider : json;
  text : str;
  cost : json;
  stop_reason : json;
  raw : json
}.

Fixpoint dict_lookup (d : list (str * json)) (k : str) : option json :=
  match d with
  | [] => None
  | (k', v) :: d' => if PyStr.eqb k' k then Some v else dict_lookup d' k
  end.

(** [d.get(k, default)] on a dict *)
Definition dict_get (d : list (str * json)) (k : str) (default : json) : json :=
  match dict_lookup d k with
  | Some v => v
  | None => default
  end.

(** [v.get(k, default)] on any decoded value: only a dict has [get]. *)
Definition py_get (v : json) (k : str) (default : json) : outcome json :=
  match v with
  | JDict d => Ret (dict_get d k default)
  | _ => Raise AttributeError
  end.

(** [v == "s"] for a string literal *)
Definition is_str (v : json) (s : str) : bool :=
  match v with
  | JStr s' => PyStr.eqb s' s
  | _ => false
  end.

(** Truth value of a decoded value ([if v]) *)
Definition truthy (v : json) : bool :=
  match v with
  | JNull => false
  | JBool b => b
  | JNum (NInt z) => negb (z =? 0)
  | JNum (NFloat n _) => negb (n =? 0)
  | JNum (NNonFinite _) => true
  | JStr s => match s with [] => false | _ => true end
  | JList l => match l with [] => false | _ => true end
  | JDict d => match d with [] => false | _ => true end
  end.

(** [for block in content]: a list yields its items, a string its
    characters, a dict its keys; nothing else is iterable. *)
Definition py_iter (v : json) : outcome (list json) :=
  match v with
  | JList l => Ret l
  | JStr s => Ret (List.map (fun c => JStr [c]) s)
  | JDict d => Ret (List.map (fun kv => JStr (fst kv)) d)
  | _ => Raise TypeError
  end.

(** The body of the loop over the blocks (parse.py lines 47-51) *)
Fixpoint text_parts (blocks : list json) : list json :=
  match blocks with
  | [] => []
  | block :: rest =>
      match block with
      | JDict d =>
          if is_str (dict_get d (lit "type") JNull) (lit "text")
          then dict_get d (lit "text") (JStr []) :: text_parts rest
          else text_parts rest
      | JStr s => JStr s :: text_parts rest
      | _ => text_parts rest
      end
  end.

(** [str.join] accepts only strings. *)
Fixpoint all_strs (parts : list json) : outcome (list str) :=
  match parts with
  | [] => Ret []
  | JStr s :: rest => ss <- all_strs rest ;; Ret (s :: ss)
  | _ :: _ => Raise TypeError
  end.

Definition py_join (sep : str) (parts : list json) : outcome str :=
  ss <- all_strs parts ;; Ret (PyStr.join sep ss).

Definition utc (now : Z) : datetime := {| wall := now; tzinfo := Some 0 |}.

(** Lines 58-62: both exceptions are caught. *)
Definition parse_timestamp `{Library} (now : Z) (obj : list (str * json))
  : datetime :=
  match dict_get obj (lit "timestamp") (JStr []) with
  | JStr ts_str =>
      match fromisoformat (PyStr.replace 90%N (lit "+00:00") ts_str) with
      | Some ts => ts
      | None => utc now
      end
  | _ => utc now
  end.

(** Lines 45-53: the text of the message. *)
Definition extract_text (msg : list (str * json)) : outcome str :=
  let content := dict_get msg (lit "content") (JList []) in
  blocks <- py_iter content ;;
  joined <- py_join [NL] (text_parts blocks) ;;
  Ret (strip joined).

(** The characters of a decoded string, nothing for any other value *)
Definition str_of (v : json) : str :=
  match v with JStr s => s | _ => [] end.

(** The text pieces of a list of blocks in the words of the
    specification: the text fields of the blocks of type "text". *)
Fixpoint block_texts (blocks : list json) : list str :=
  match blocks with
  | [] => []
  | JDict d :: rest =>
      if is_str (dict_get d (lit "type") JNull) (lit "text")
      then str_of (dict_get d (lit "text") (JStr [])) :: block_texts rest
      else block_texts rest
  | _ :: rest => block_texts rest
  end.

(** Lines 65-67: [message.usage.cost.total] *)
Definition usage_cost (msg : list (str * json)) : outcome json :=
  let usage := dict_get msg (lit "usage") (JDict []) in
  cost_obj <- py_get usage (lit "cost") (JDict []) ;;
  if truthy cost_obj then py_get cost_obj (lit "total") JNull else Ret JNull.

(** [role not in ("user", "assistant")] *)
Definition wanted_role (role : json) : bool :=
  is_str role (lit "user") || is_str role (lit "assistant").

Definition role_str (role : json) : str := str_of role.

(** Lines 69-80: the record returned. *)
Definition make_message `{Library} (now : Z) (obj msg : list (str * json))
  (agent session_id text : str) (cost : json) : ParsedMessage :=
  {| timestamp := parse_timestamp now obj;
     role := role_str (dict_get msg (lit "role") (JStr []));
     agent := agent;
     session_id := session_id;
     model := dict_get msg (lit "model") JNull;
     provider := dict_get msg (lit "provider") JNull;
     text := text;
     cost := cost;
     stop_reason := dict_get msg (lit "stopReason") JNull;
     raw := JDict obj |}.

(** [parse_line]; [now] is the reading of the clock [datetime.now] would
    give.  [obj.get] and [msg.get] raise AttributeError on anything but a
    dict, and nothing catches it. *)
Definition parse_line `{Library} (now : Z) (line agent session_id : str)
  : outcome (option ParsedMessage) :=
  match json_loads line with
  | None => Ret None                       (* except JSONDecodeError *)
  | Some (JDict obj) =>
      if negb (is_str (dict_get obj (lit "type") JNull) (lit "message"))
      then Ret None else
      match dict_get obj (lit "message") (JDict []) with
      | JDict msg =>
          if negb (wanted_role (dict_get msg (lit "role") (JStr [])))
          then Ret None else
          text <- extract_text msg ;;
          match text with
          | [] => Ret None
          | _ :: _ =>
              cost <- usage_cost msg ;;
              Ret (Some (make_message now obj msg agent session_id text cost))
          end
      | _ => Raise AttributeError          (* msg.get on a non-dict *)
      end
  | Some _ => Raise AttributeError         (* obj.get on a non-dict *)
  end.

(** [extract_session_id] on the file name of a path *)
Definition extract_session_id (name : str) : str :=
  hd [] (PyStr.split 46%N name).

End Parse.
Import Parse.

(** ** paths.py *)

Module Paths.

(** A session file is [AGENTS_DIR / agent / "sessions" / name]. *)
Record Path := { p_agent : str; p_name : str }.

Definition path_eqb (p q : Path) : bool :=
  PyStr.eqb (p_agent p) (p_agent q) && PyStr.eqb (p_name p) (p_name q).

Record DirEntry := { d_name : str; d_mtime : Z }.

(** What the file system shows at one moment. *)
Record World := {
  (* iterdir() of an agent's sessions directory; None: not a directory *)
  session_dir : str -> option (list DirEntry);
  (* the text open(path, "r") gives access to; None: open raises OSError *)
  file_text : Path -> option str;
  (* the bytes open(path, "rb") gives access to; None: OSError *)
  file_bytes : Path -> option (list byte);
  (* time.monotonic() *)
  monotonic : Z
}.

Definition endswith (suffix s : str) : bool :=
  PyStr.startswith (rev suffix) (rev s).

Definition contains (sub s : str) : bool :=
  match PyStr.find sub s with Some _ => true | None => false end.

(** A stable insertion sort: [before y x] says that [y] must come before
    an [x] that preceded it in the input. *)
Fixpoint insert_by {A} (before : A -> A -> bool) (x : A) (l : list A)
  : list A :=
  match l with
  | [] => [x]
  | y :: l' => if before y x then y :: insert_by before x l' else x :: l
  end.

Definition sort_by {A} (before : A -> A -> bool) (l : list A) : list A :=
  fold_right (insert_by before) [] l.

Definition get_session_files (w : World) (agent : str) (include_deleted : bool)
  : list Path :=
  match session_dir w agent with
  | None => []
  | Some entries =>
      let files :=
        filter (fun f =>
                  endswith (lit ".jsonl") (d_name f)
                  && (include_deleted
                      || negb (contains (lit ".deleted.") (d_name f))))
               entries in
      List.map (fun f => {| p_agent := agent; p_name := d_name f |})
        (* sorted(..., key=mtime, reverse=True) *)
        (sort_by (fun y x => d_mtime y >? d_mtime x) files)
  end.

(** An entry of [AGENTS_DIR]: its name, whether it is a directory, and
    whether it holds a directory [sessions]. *)
Record AgentEntry := {
  a_name : str;
  a_is_dir : bool;
  a_has_sessions : bool
}.

(** [get_agents]; the argument is the listing of [AGENTS_DIR], [None]
    when it is not a directory. *)
Definition get_agents (agents_dir : option (list AgentEntry)) : list str :=
  match agents_dir with
  | None => []
  | Some entries =>
      sort_by (fun y x => PyStr.ltb y x)
        (List.map a_name
           (filter (fun d => a_is_dir d && a_has_sessions d) entries))
  end.

End Paths.
Import Paths.

(** ** commands/tail.py *)

Module Tail.

(** *** format_message: the text of the display line (lines 57-73) *)

Definition marker : str := lit "[User Message]".

(** Lines 58-65 *)
Definition display_text (msg : ParsedMessage) : str :=
  let text := text msg in
  if PyStr.eqb (role msg) (lit "user") && PyStr.startswith (lit "[") text
  then match PyStr.find marker text with
       | Some idx =>
           strip (slice_from (Z.of_nat (idx + length marker)) text)
       | None => text
       end
  else text.

(** Lines 68-71; [width] is [console.width]. *)
Definition collapse_truncate (width : Z) (text : str) : str :=
  let text_oneline :=
    PyStr.replace NL (lit " " ++ [8629%N] ++ lit " ") text in
  let max_width := Z.max 40 ((if width =? 0 then 120 else width) - 50) in
  if Z.of_nat (length text_oneline) >? max_width
  then slice_to (max_width - 1) text_oneline ++ [8230%N]
  else text_oneline.

Definition format_message_text (width : Z) (msg : ParsedMessage) : str :=
  collapse_truncate width (display_text msg).

(** *** format_message: the display line (lines 22-74) *)

(** What the renderer asks of its surroundings: the width of the console
    and three routines of the library, each of which can raise. *)
Class Console := {
  (* console.width *)
  console_width : Z;
  (* msg.timestamp.astimezone().strftime("%H:%M:%S"); astimezone raises
     OverflowError on an instant it cannot convert *)
  local_time : datetime -> outcome str;
  (* str(v), as an f-string formats a value that is not a string *)
  py_str : json -> outcome str;
  (* format(v, ".4f") of a number or a boolean; OverflowError on an int
     too large for a float *)
  format_4f : json -> outcome str
}.

(** A [rich.text.Text]: the pieces handed to [Text.append], in order,
    each with the style it was handed with. *)
Definition Text : Type := list (str * option str).

(** [v > 0]: a number or a boolean compares with an int, and a string, a
    list or a dict raises TypeError.  (None is excluded before the
    comparison is made.) *)
Definition gt_zero (v : json) : outcome bool :=
  match v with
  | JBool b => Ret b
  | JNum (NInt z) => Ret (z >? 0)
  | JNum (NFloat n _) => Ret (n >? 0)
  | JNum (NNonFinite x) =>
      Ret (match x with PosInf => true | _ => false end)
  | _ => Raise TypeError
  end.

(** [f"{v}"]: a string is itself. *)
Definition format_value `{Console} (v : json) : outcome str :=
  match v with
  | JStr s => Ret s
  | _ => py_str v
  end.

(** Lines 43-51: the role badge. *)
Definition role_badge `{Console} (msg : ParsedMessage) : outcome Text :=
  if PyStr.eqb (role msg) (lit "user")
  then Ret [(lit "USER ", Some (lit "bold green"))]
  else if PyStr.eqb (role msg) (lit "assistant")
  then
    (* msg.model or "unknown" *)
    let model_tag :=
      if truthy (model msg) then model msg else JStr (lit "unknown") in
    if is_str model_tag (lit "delivery-mirror")
    then Ret [(lit "AI(mirror) ", Some (lit "bold blue"))]
    else
      tag <- format_value model_tag ;;
      Ret [(lit "AI(" ++ tag ++ lit ") ", Some (lit "bold magenta"))]
  else Ret [].

(** Lines 53-55: the cost. *)
Definition cost_tag `{Console} (msg : ParsedMessage) : outcome Text :=
  match cost msg with
  | JNull => Ret []
  | c =>
      above <- gt_zero c ;;
      if above
      then
        amount <- format_4f c ;;
        Ret [(lit "$" ++ amount ++ lit " ", Some (lit "yellow"))]
      else Ret []
  end.

Definition format_message `{Console} (msg : ParsedMessage)
  (show_session : bool) : outcome Text :=
  time_str <- local_time (timestamp msg) ;;
  let stamp :=
    [(time_str, Some (lit "dim")); (lit " ", None);
     (lit "[" ++ agent msg ++ lit "]", Some (lit "cyan")); (lit " ", None)] in
  let session :=
    if show_session
    then [(lit "(" ++ slice_to 8 (session_id msg) ++ lit ")",
           Some (lit "dim"));
          (lit " ", None)]
    else [] in
  badge <- role_badge msg ;;
  amount <- cost_tag msg ;;
  Ret (stamp ++ session ++ badge ++ amount
       ++ [(format_message_text console_width msg, None)]).

(** *** SessionTailer *)

(** An open text file: the file it reads and its cursor. *)
Record Handle := { h_path : Path; h_pos : nat }.

Definition Source : Type := Handle * str * str.

(** [self._files], in insertion order *)
Definition Registry := list (Path * Source).

Fixpoint lookup (files : Registry) (p : Path) : option Source :=
  match files with
  | [] => None
  | (q, e) :: rest => if path_eqb q p then Some e else lookup rest p
  end.

Definition known (files : Registry) (p : Path) : bool :=
  match lookup files p with Some _ => true | None => false end.

Record SessionTailer := {
  agents : list str;
  include_deleted : bool;
  poll_interval : Z;
  new_files_interval : Z;
  _files : Registry;
  _last_scan : Z
}.

(** The body of the inner loop of [_scan_files] (lines 101-109) *)
Definition scan_path (w : World) (agent : str) (files : Registry) (path : Path)
  : Registry :=
  if known files path then files
  else match file_text w path with
       | None => files                       (* except OSError: pass *)
       | Some content =>
           let fh := {| h_path := path; h_pos := length content |} in
           files ++ [(path, (fh, agent, extract_session_id (p_name path)))]
       end.

Definition scan_agent (w : World) (incl : bool) (files : Registry) (agent : str)
  : Registry :=
  fold_left (scan_path w agent) (get_session_files w agent incl) files.

Definition scan_registry (w : World) (ags : list str) (incl : bool)
  (files : Registry) : Registry :=
  fold_left (scan_agent w incl) ags files.

Definition _scan_files (w : World) (t : SessionTailer) : SessionTailer :=
  {| agents := agents t; include_deleted := include_deleted t;
     poll_interval := poll_interval t;
     new_files_interval := new_files_interval t;
     _files := scan_registry w (agents t) (include_deleted t) (_files t);
     _last_scan := monotonic w |}.

(** What discovery keeps true of the registry for a path [p]: it holds
    at most one source for [p]; a source it held before ([old]) is
    untouched; a source it did not hold before, once registered, has its
    cursor at the end of the text the file held then. *)
Definition scan_inv (w : World) (p : Path) (old : option Source) (files : Registry)
  : Prop :=
  (length (filter (fun kv => path_eqb (fst kv) p) files) <= 1)%nat
  /\ (lookup files p = None ->
      length (filter (fun kv => path_eqb (fst kv) p) files) = 0%nat)
  /\ match old with
     | Some src => lookup files p = Some src
     | None =>
         forall src, lookup files p = Some src ->
           exists content ag,
             file_text w p = Some content
             /\ src = ({| h_path := p; h_pos := length content |}, ag,
                       extract_session_id (p_name p))
     end.

(** [fh.readline()] on the unread text: the line read, terminator included
    if there is one, and what stays unread.  At the end of the file the
    unterminated rest is returned as a line; the empty string means that
    nothing is left. *)
Fixpoint readline (unread : str) : str * str :=
  match unread with
  | [] => ([], [])
  | c :: s =>
      if N.eqb c NL then ([c], s)
      else let (line, rest) := readline s in (c :: line, rest)
  end.

(** The lines successive calls of [readline] return until the empty one. *)
Fixpoint readlines (unread : str) : list str :=
  match unread with
  | [] => []
  | c :: s =>
      if N.eqb c NL then [c] :: readlines s
      else match readlines s with
           | [] => [[c]]
           | line :: lines => (c :: line) :: lines
           end
  end.

(** What one source gave in one pass: the records printed, the handle as
    the pass leaves it, and the exception that ended it, if any (the
    parser's or the renderer's). *)
Record Read := {
  emitted : list ParsedMessage;
  handle : Handle;
  raised : option exn
}.

Definition advance (fh : Handle) (line : str) : Handle :=
  {| h_path := h_path fh; h_pos := h_pos fh + length line |}.

(** The inner [while True] of [tail] (lines 137-147) over the lines
    [readline] returns.  A record is printed once [format_message] has
    rendered it. *)
Fixpoint drain `{Library} `{Console} (now : Z) (agent session_id : str)
  (fh : Handle)
  (lines : list str) : Read :=
  match lines with
  | [] => {| emitted := []; handle := fh; raised := None |}
  | raw_line :: rest =>
      let fh := advance fh raw_line in
      match strip raw_line with
      | [] => drain now agent session_id fh rest
      | line =>
          match parse_line now line agent session_id with
          | Raise e => {| emitted := []; handle := fh; raised := Some e |}
          | Ret None => drain now agent session_id fh rest
          | Ret (Some msg) =>
              match format_message msg true with
              | Raise e => {| emitted := []; handle := fh; raised := Some e |}
              | Ret _ =>
                  let r := drain now agent session_id fh rest in
                  {| emitted := msg :: emitted r; handle := handle r;
                     raised := raised r |}
              end
          end
      end
  end.

(** One source in one pass, on the text the file holds now. *)
Definition read_source `{Library} `{Console} (now : Z) (content : str)
  (src : Source) : Read :=
  let '(fh, agent, session_id) := src in
  drain now agent session_id fh (readlines (skipn (h_pos fh) content)).

(** The [for] loop over [self._files] (lines 136-147): the records printed
    in order, the registry with the cursors advanced, and the exception
    that ended the pass, if any. *)
Fixpoint read_pass `{Library} `{Console} (now : Z) (w : World)
  (files : Registry) : list ParsedMessage * Registry * option exn :=
  match files with
  | [] => ([], [], None)
  | (path, src) :: rest =>
      let content :=
        match file_text w (h_path (fst (fst src))) with
        | Some c => c
        | None => []
        end in
      let r := read_source now content src in
      let src' := (handle r, snd (fst src), snd src) in
      match raised r with
      | Some e => (emitted r, (path, src') :: rest, Some e)
      | None =>
          let '(ms, rest', e) := read_pass now w rest in
          (emitted r ++ ms, (path, src') :: rest', e)
      end
  end.

(** What a cycle of the loop shows on the console. *)
Inductive event :=
| NewSessions (count : nat)
| Message (msg : ParsedMessage).

(** One iteration of the outer [while True] of [tail] (lines 125-151):
    the events printed, the tailer afterwards, whether the cycle sleeps,
    and the exception that leaves the loop, if any.  The cycle sleeps
    when the pass has ended without an exception and has printed
    nothing; an exception leaves the loop before the sleep. *)
Definition cycle `{Library} `{Console} (now : Z) (w : World)
  (t : SessionTailer) : list event * SessionTailer * bool * option exn :=
  let due := monotonic w - _last_scan t >? new_files_interval t in
  let t1 := if due then _scan_files w t else t in
  let added := (length (_files t1) - length (_files t))%nat in
  let info := if due && (0 <? added)%nat then [NewSessions added] else [] in
  let '(ms, files', e) := read_pass now w (_files t1) in
  let t2 := {| agents := agents t1; include_deleted := include_deleted t1;
               poll_interval := poll_interval t1;
               new_files_interval := new_files_interval t1;
               _files := files'; _last_scan := _last_scan t1 |} in
  (info ++ List.map Message ms, t2,
   match e, ms with None, [] => true | _, _ => false end, e).

(** *** The backfill: _tail_lines and _show_last_n *)

Definition _tail_lines `{Library} (w : World) (path : Path) (max_lines : Z)
  : list str :=
  match file_bytes w path with
  | None => []                                   (* except OSError *)
  | Some bytes =>
      let size := Z.of_nat (length bytes) in
      let chunk := Z.min size (max_lines * 2048) in
      let region := skipn (Z.to_nat (Z.max 0 (size - chunk))) bytes in
      let data := decode_utf8_replace region in
      let lines := PyStr.split NL (strip data) in
      slice_from (- max_lines) lines
  end.

(** The loop over the lines of one file (lines 244-247) *)
Fixpoint parse_lines `{Library} (now : Z) (agent session_id : str)
  (lines : list str) : outcome (list ParsedMessage) :=
  match lines with
  | [] => Ret []
  | line :: rest =>
      msg <- parse_line now line agent session_id ;;
      ms <- parse_lines now agent session_id rest ;;
      Ret (match msg with Some m => m :: ms | None => ms end)
  end.

Fixpoint collect_paths `{Library} (now : Z) (w : World) (n : Z) (agent : str)
  (paths : list Path) : outcome (list ParsedMessage) :=
  match paths with
  | [] => Ret []
  | path :: rest =>
      let session_id := extract_session_id (p_name path) in
      ms <- parse_lines now agent session_id (_tail_lines w path (n * 3)) ;;
      ms' <- collect_paths now w n agent rest ;;
      Ret (ms ++ ms')
  end.

Fixpoint collect_agents `{Library} (now : Z) (w : World) (n : Z) (incl : bool)
  (ags : list str) : outcome (list ParsedMessage) :=
  match ags with
  | [] => Ret []
  | agent :: rest =>
      ms <- collect_paths now w n agent (get_session_files w agent incl) ;;
      ms' <- collect_agents now w n incl rest ;;
      Ret (ms ++ ms')
  end.

(** The messages the sources hold, in the words of the specification:
    what parsing every line of every source file gives.  [file_lines] is
    the whole file split the way [_tail_lines] splits its region. *)
Definition file_lines `{Library} (w : World) (path : Path) : list str :=
  match file_bytes w path with
  | None => []
  | Some bytes => PyStr.split NL (strip (decode_utf8_replace bytes))
  end.

Fixpoint held_by_paths `{Library} (now : Z) (w : World) (agent : str)
  (paths : list Path) : outcome (list ParsedMessage) :=
  match paths with
  | [] => Ret []
  | path :: rest =>
      ms <- parse_lines now agent (extract_session_id (p_name path))
              (file_lines w path) ;;
      ms' <- held_by_paths now w agent rest ;;
      Ret (ms ++ ms')
  end.

Fixpoint held_by_sources `{Library} (now : Z) (w : World) (incl : bool)
  (ags : list str) : outcome (list ParsedMessage) :=
  match ags with
  | [] => Ret []
  | agent :: rest =>
      ms <- held_by_paths now w agent (get_session_files w agent incl) ;;
      ms' <- held_by_sources now w incl rest ;;
      Ret (ms ++ ms')
  end.

(** The instant an aware datetime denotes; the fields of a naive one. *)
Definition instant (t : datetime) : Z :=
  match tzinfo t with
  | Some offset => wall t - offset
  | None => wall t
  end.

(** Comparing a naive with an aware datetime raises TypeError, and a
    sort cannot order a list holding both without such a comparison. *)
Definition comparable (ms : list ParsedMessage) : bool :=
  forallb (fun m => aware (timestamp m)) ms
  || forallb (fun m => negb (aware (timestamp m))) ms.

(** [all_messages.sort(key=lambda m: m.timestamp)]: stable, ascending *)
Definition sort_messages (ms : list ParsedMessage)
  : outcome (list ParsedMessage) :=
  if comparable ms
  then Ret (sort_by (fun y x => instant (timestamp y) <? instant (timestamp x))
              ms)
  else Raise TypeError.

(** The loop of lines 253-254: each record is rendered, then printed. *)
Fixpoint print_messages `{Console} (ms : list ParsedMessage)
  : outcome (list Text) :=
  match ms with
  | [] => Ret []
  | msg :: rest =>
      line <- format_message msg true ;;
      lines <- print_messages rest ;;
      Ret (line :: lines)
  end.

(** [_show_last_n]: the records printed, in order, when the function
    returns; the exception that leaves it otherwise (the parser's, the
    sort's or the renderer's).  The empty line of lines 256-257 is no
    record. *)
Definition _show_last_n `{Library} `{Console} (now : Z) (w : World)
  (ags : list str) (n : Z) (incl : bool) : outcome (list ParsedMessage) :=
  all_messages <- collect_agents now w n incl ags ;;
  sorted <- sort_messages all_messages ;;
  let shown := slice_from (- n) sorted in
  lines <- print_messages shown ;;
  Ret shown.

(** *** The command [tail] (lines 194-231)

    What the command does is the calls it makes, in order: the backfills
    it prints and the live tail it starts, or the exit with a status. *)
Inductive step :=
| ShowLast (ags : list str) (n : Z) (include_deleted : bool)
| Follow (ags : list str) (include_deleted : bool).

Inductive command_result :=
| SystemExit (code : Z)
| Steps (steps : list step).

Definition tail (agents_dir : option (list AgentEntry)) (ags : list str)
  (last_n : Z) (all_roles no_follow deleted : bool) : command_result :=
  let agent_list :=
    match ags with [] => get_agents agents_dir | _ => ags end in
  match agent_list with
  | [] => SystemExit 1
  | _ =>
      let shown :=
        if last_n >? 0 then [ShowLast agent_list last_n deleted] else [] in
      if no_follow
      then Steps (shown ++ (if last_n =? 0
                            then [ShowLast agent_list 20 deleted] else []))
      else Steps (shown ++ [Follow agent_list deleted])
  end.


(** *** Predicates for stating properties of the tailer *)

(** A registry entry as discovery makes it: the file could be opened, the
    source is bound to the agent of the path and to the session
    identifier of the file name, and the cursor is at the end of the
    text. *)
Definition opened_at_end (w : World) (kv : Path * Source) : Prop :=
  exists content,
    file_text w (fst kv) = Some content
    /\ snd kv = ({| h_path := fst kv; h_pos := length content |},
                 p_agent (fst kv), extract_session_id (p_name (fst kv))).

(** A registry entry after a read pass, compared with the entry before:
    the same path, file, agent and session, and the cursor no further
    back. *)
Definition read_further (old new : Path * Source) : Prop :=
  fst new = fst old
  /\ h_path (fst (fst (snd new))) = h_path (fst (fst (snd old)))
  /\ snd (fst (snd new)) = snd (fst (snd old))
  /\ snd (snd new) = snd (snd old)
  /\ (h_pos (fst (fst (snd old))) <= h_pos (fst (fst (snd new))))%nat.

(** The file of a registry entry holds no text beyond the cursor. *)
Definition nothing_unread (w : World) (kv : Path * Source) : Prop :=
  forall content,
    file_text w (h_path (fst (fst (snd kv)))) = Some content ->
    (length content <= h_pos (fst (fst (snd kv))))%nat.

End Tail.
Import Tail.

(** ** Sample inputs

    The inputs at which the theorems below are instantiated.  [jlit] writes
    a JSON text with ['] standing for the double quote.  [table_library]
    is a stand-in for the three library routines that knows the documents
    and the timestamps listed in its tables and rejects every other text;
    its decoder is exact on 7-bit input. *)

Module Sample.

Definition jlit (s : string) : str :=
  List.map (fun c => if N.eqb c 39 then 34%N else c) (lit s).

Fixpoint assoc {A} (tbl : list (str * A)) (k : str) : option A :=
  match tbl with
  | [] => None
  | (k', v) :: tbl' => if PyStr.eqb k' k then Some v else assoc tbl' k
  end.

Definition decode_7bit (bs : list byte) : str :=
  List.map (fun b => let n := Byte.to_N b in
                     if (n <? 128)%N then n else 65533%N) bs.

Definition table_library (docs : list (str * json))
  (stamps : list (str * datetime)) : Library :=
  {| json_loads := assoc docs;
     fromisoformat := assoc stamps;
     decode_utf8_replace := decode_7bit |}.

Definition jstr (s : string) : json := JStr (lit s).

Definition text_block (s : string) : json :=
  JDict [(lit "type", jstr "text"); (lit "text", jstr s)].

Definition message (role : string) (content : json) : list (str * json) :=
  [(lit "type", jstr "message");
   (lit "message", JDict [(lit "role", jstr role); (lit "content", content)])].

(** {"type": "message", "message": "hi"} *)
Definition line_message_is_string : str :=
  jlit "{'type': 'message', 'message': 'hi'}".
Definition doc_message_is_string : list (str * json) :=
  [(lit "type", jstr "message"); (lit "message", jstr "hi")].

(** A user message whose content is the plain string "hi" *)
Definition line_plain_content : str :=
  jlit "{'type': 'message', 'message': {'role': 'user', 'content': 'hi'}}".
Definition doc_plain_content : list (str * json) := message "user" (jstr "hi").

(** A tool result *)
Definition line_tool_result : str :=
  jlit "{'type': 'message', 'message': {'role': 'toolResult', 'content': [{'type': 'text', 'text': 'ok'}]}}".
Definition doc_tool_result : list (str * json) :=
  message "toolResult" (JList [text_block "ok"]).

(** A user message stamped without an offset *)
Definition line_naive : str :=
  jlit "{'type': 'message', 'timestamp': '2026-01-01T10:00:00', 'message': {'role': 'user', 'content': [{'type': 'text', 'text': 'hi'}]}}".
Definition doc_naive : list (str * json) :=
  [(lit "type", jstr "message");
   (lit "timestamp", jstr "2026-01-01T10:00:00");
   (lit "message",
    JDict [(lit "role", jstr "user");
           (lit "content", JList [text_block "hi"])])].
Definition stamp_naive : datetime :=
  {| wall := (739616 * 86400 + 36000) * 1000000; tzinfo := None |}.

Definition parser_library : Library :=
  table_library
    [(line_message_is_string, JDict doc_message_is_string);
     (line_plain_content, JDict doc_plain_content);
     (line_tool_result, JDict doc_tool_result);
     (line_naive, JDict doc_naive)]
    [(lit "2026-01-01T10:00:00", stamp_naive)].

(** Two records for the renderer *)
Definition msg_prefixed : ParsedMessage :=
  {| timestamp := utc 0; role := lit "user"; agent := lit "main";
     session_id := lit "s1"; model := JNull; provider := JNull;
     text := lit "[Tue 2026-01-06 10:00 UTC] [User Message] hello ";
     cost := JNull; stop_reason := JNull; raw := JNull |}.

Definition msg_assistant : ParsedMessage :=
  {| timestamp := utc 0; role := lit "assistant"; agent := lit "main";
     session_id := lit "s1"; model := jstr "m"; provider := JNull;
     text := lit "[note] see [User Message] above";
     cost := JNull; stop_reason := JNull; raw := JNull |}.

(** A session file of the agent "main", and the file system showing it
    with a given text *)
Definition session_path : Path :=
  {| p_agent := lit "main"; p_name := lit "s1.jsonl" |}.

Definition world_with (content : str) : World :=
  {| session_dir := fun ag =>
       if PyStr.eqb ag (lit "main")
       then Some [{| d_name := lit "s1.jsonl"; d_mtime := 1 |}]
       else None;
     file_text := fun p =>
       if path_eqb p session_path then Some content else None;
     file_bytes := fun _ => None;
     monotonic := 0 |}.

(** Ten lines in the file before discovery, three appended afterwards *)
Definition ten_lines : str := concat (repeat (line_naive ++ [NL]) 10).
Definition three_lines : str := concat (repeat (line_naive ++ [NL]) 3).

(** A tailer before its first discovery (intervals in milliseconds) *)
Definition fresh_tailer : SessionTailer :=
  {| agents := [lit "main"]; include_deleted := false;
     poll_interval := 500; new_files_interval := 5000;
     _files := []; _last_scan := 0 |}.

Definition registered_source : Source :=
  ({| h_path := session_path; h_pos := length ten_lines |},
   lit "main", lit "s1").

(** A line written in two pieces *)
Definition first_piece : str := firstn 40 line_naive.
Definition second_piece : str := skipn 40 line_naive ++ [NL].
Definition handle_at_start : Handle :=
  {| h_path := session_path; h_pos := 0 |}.

(** Files for the backfill: the bytes of a 7-bit text, and a file system
    showing the given files in the sessions directory of "main" *)
Definition encode_7bit (s : str) : list byte :=
  List.map (fun c => match Byte.of_N c with Some b => b | None => x00 end) s.

Definition backfill_world (files : list (str * list byte)) : World :=
  {| session_dir := fun ag =>
       if PyStr.eqb ag (lit "main")
       then Some (List.map (fun nf => {| d_name := fst nf; d_mtime := 0 |})
                    files)
       else None;
     file_text := fun _ => None;
     file_bytes := fun p =>
       if PyStr.eqb (p_agent p) (lit "main") then assoc files (p_name p)
       else None;
     monotonic := 0 |}.

(** A first line of 7000 characters, then a message *)
Definition long_file : list byte :=
  encode_7bit (repeat 120%N (Z.to_nat 7000) ++ [NL] ++ line_naive ++ [NL]).
Definition long_world : World := backfill_world [(lit "s1.jsonl", long_file)].


(** Fifteen messages with distinct timestamps, message [i] stamped
    2026-01-01T00:00:ii+00:00, spread over three files *)
Definition two_digits (i : nat) : str :=
  [N.of_nat (48 + i / 10); N.of_nat (48 + i mod 10)].

Definition stamp_text (i : nat) : str :=
  lit "2026-01-01T00:00:" ++ two_digits i ++ lit "+00:00".

Definition stamp_of (i : nat) : datetime :=
  {| wall := (739616 * 86400 + Z.of_nat i) * 1000000; tzinfo := Some 0 |}.


Definition doc_of (i : nat) : list (str * json) :=
  [(lit "type", jstr "message");
   (lit "timestamp", JStr (stamp_text i));
   (lit "message",
    JDict [(lit "role", jstr "user");
           (lit "content",
            JList [JDict [(lit "type", jstr "text");
                          (lit "text", JStr (lit "m" ++ two_digits i))]])])].




Definition record_of (session : string) (i : nat) : ParsedMessage :=
  {| timestamp := stamp_of i; role := lit "user"; agent := lit "main";
     session_id := lit session; model := JNull; provider := JNull;
     text := lit "m" ++ two_digits i; cost := JNull; stop_reason := JNull;
     raw := JDict (doc_of i) |}.



(** Further lines for the parser *)
Definition line_list : str := jlit "[1, 2]".
Definition doc_list : json := JList [JNum (NInt 1); JNum (NInt 2)].

Definition line_null_content : str :=
  jlit "{'type': 'message', 'message': {'role': 'user', 'content': null}}".
Definition doc_null_content : list (str * json) := message "user" JNull.

Definition null_text_block : list (str * json) :=
  [(lit "type", jstr "text"); (lit "text", JNull)].
Definition line_null_text : str :=
  jlit "{'type': 'message', 'message': {'role': 'assistant', 'content': [{'type': 'text', 'text': null}]}}".
Definition doc_null_text : list (str * json) :=
  message "assistant" (JList [JDict null_text_block]).

Definition tool_call_block : json :=
  JDict [(lit "type", jstr "toolCall"); (lit "name", jstr "read")].
Definition line_tool_call : str :=
  jlit "{'type': 'message', 'message': {'role': 'assistant', 'content': [{'type': 'toolCall', 'name': 'read'}]}}".
Definition doc_tool_call : list (str * json) :=
  message "assistant" (JList [tool_call_block]).

Definition line_no_timestamp : str :=
  jlit "{'type': 'message', 'message': {'role': 'user', 'content': [{'type': 'text', 'text': 'hi'}]}}".
Definition doc_no_timestamp : list (str * json) :=
  message "user" (JList [text_block "hi"]).

(** An assistant message with a cost that is a number: 0.5 *)
Definition msg_numeric_cost : list (str * json) :=
  [(lit "role", jstr "assistant");
   (lit "content", JList [text_block "hi"]);
   (lit "usage", JDict [(lit "cost", JNum (NFloat 1 2))])].
Definition line_numeric_cost : str :=
  jlit "{'type': 'message', 'message': {'role': 'assistant', 'content': [{'type': 'text', 'text': 'hi'}], 'usage': {'cost': 0.5}}}".
Definition doc_numeric_cost : list (str * json) :=
  [(lit "type", jstr "message"); (lit "message", JDict msg_numeric_cost)].

(** An assistant message with all its fields, stamped in UTC *)
Definition msg_full : list (str * json) :=
  [(lit "role", jstr "assistant");
   (lit "content", JList [text_block " hello "; tool_call_block]);
   (lit "model", jstr "m1");
   (lit "usage",
    JDict [(lit "cost", JDict [(lit "total", JNum (NFloat 1 4))])])].
Definition line_full : str :=
  jlit "{'type': 'message', 'timestamp': '2026-01-01T10:00:00Z', 'message': {'role': 'assistant', 'content': [{'type': 'text', 'text': ' hello '}, {'type': 'toolCall', 'name': 'read'}], 'model': 'm1', 'usage': {'cost': {'total': 0.25}}}}".
Definition doc_full : list (str * json) :=
  [(lit "type", jstr "message");
   (lit "timestamp", jstr "2026-01-01T10:00:00Z");
   (lit "message", JDict msg_full)].
Definition stamp_utc : datetime :=
  {| wall := (739616 * 86400 + 36000) * 1000000; tzinfo := Some 0 |}.

Definition extra_library : Library :=
  table_library
    [(line_list, doc_list);
     (line_null_content, JDict doc_null_content);
     (line_null_text, JDict doc_null_text);
     (line_tool_call, JDict doc_tool_call);
     (line_no_timestamp, JDict doc_no_timestamp);
     (line_numeric_cost, JDict doc_numeric_cost);
     (line_full, JDict doc_full)]
    [(lit "2026-01-01T10:00:00+00:00", stamp_utc)].

Definition record_full : ParsedMessage :=
  {| timestamp := stamp_utc; role := lit "assistant"; agent := lit "main";
     session_id := lit "s1"; model := jstr "m1"; provider := JNull;
     text := lit "hello"; cost := JNum (NFloat 1 4); stop_reason := JNull;
     raw := JDict doc_full |}.

Definition record_no_timestamp : ParsedMessage :=
  {| timestamp := utc 42; role := lit "user"; agent := lit "main";
     session_id := lit "s1"; model := JNull; provider := JNull;
     text := lit "hi"; cost := JNull; stop_reason := JNull;
     raw := JDict doc_no_timestamp |}.


(** A sessions directory holding two logs, the log of a deleted session
    and a file that is no log; an agents directory holding two agents, a
    directory without sessions and a plain file *)
Definition mixed_entries : list DirEntry :=
  [{| d_name := lit "old.jsonl"; d_mtime := 1 |};
   {| d_name := lit "gone.deleted.1.jsonl"; d_mtime := 2 |};
   {| d_name := lit "notes.txt"; d_mtime := 4 |};
   {| d_name := lit "new.jsonl"; d_mtime := 3 |}].

Definition mixed_world : World :=
  {| session_dir := fun ag =>
       if PyStr.eqb ag (lit "main") then Some mixed_entries else None;
     file_text := fun p =>
       if PyStr.eqb (p_name p) (lit "notes.txt") then None else Some [];
     file_bytes := fun _ => None;
     monotonic := 0 |}.

Definition log_path (name : string) : Path :=
  {| p_agent := lit "main"; p_name := lit name |}.

Definition agents_listing : list AgentEntry :=
  [{| a_name := lit "main"; a_is_dir := true; a_has_sessions := true |};
   {| a_name := lit "README"; a_is_dir := false; a_has_sessions := false |};
   {| a_name := lit "empty"; a_is_dir := true; a_has_sessions := false |};
   {| a_name := lit "coder"; a_is_dir := true; a_has_sessions := true |}].

(** Texts for the renderer: one that fits and one of 50 characters *)
Definition short_text : str := lit "hello".
Definition wide_text : str := repeat 120%N 50.

(** A registry holding the sample source, and the file system after three
    lines have been appended to its file *)
Definition one_source : Registry := [(session_path, registered_source)].
Definition grown_world : World := world_with (ten_lines ++ three_lines).
Definition source_at_end : Source :=
  ({| h_path := session_path; h_pos := length (ten_lines ++ three_lines) |},
   lit "main", lit "s1").

(** A line of blanks *)
Definition blank_text : str := [32%N; 9%N; NL; NL].

(** The sample file cut where the region of three lines starts *)
Definition long_file_head : list byte :=
  firstn (length long_file - Z.to_nat 6144) long_file.
Definition long_file_region : list byte :=
  skipn (length long_file - Z.to_nat 6144) long_file.
Definition region_world : World :=
  backfill_world [(lit "s1.jsonl", long_file_region)].

(** A session file holding a message and a line that is a JSON list, and
    one holding a message stamped in UTC and one stamped without offset *)
Definition broken_world : World :=
  backfill_world
    [(lit "s1.jsonl", encode_7bit (line_full ++ [NL] ++ line_list ++ [NL]))].

Definition mixed_library : Library :=
  table_library
    [(line_naive, JDict doc_naive); (line_full, JDict doc_full)]
    [(lit "2026-01-01T10:00:00", stamp_naive);
     (lit "2026-01-01T10:00:00+00:00", stamp_utc)].

Definition mixed_stamps_world : World :=
  backfill_world
    [(lit "s1.jsonl", encode_7bit (line_full ++ [NL] ++ line_naive ++ [NL]))].

Definition record_naive : ParsedMessage :=
  {| timestamp := stamp_naive; role := lit "user"; agent := lit "main";
     session_id := lit "s1"; model := JNull; provider := JNull;
     text := lit "hi"; cost := JNull; stop_reason := JNull;
     raw := JDict doc_naive |}.

(** An agents directory without any agent *)
Definition no_agents_listing : list AgentEntry :=
  [{| a_name := lit "README"; a_is_dir := false; a_has_sessions := false |};
   {| a_name := lit "empty"; a_is_dir := true; a_has_sessions := false |}].


(** The console of the samples: 120 columns wide, in a zone whose local
    time is UTC.  The samples ask [str] of no value and [format] of the
    cost 0.25 only; the two routines are given there and raise
    elsewhere. *)
Definition clock_text (t : datetime) : str :=
  let seconds := (instant t / 1000000) mod 86400 in
  two_digits (Z.to_nat (seconds / 3600)) ++ lit ":"
  ++ two_digits (Z.to_nat (seconds / 60 mod 60)) ++ lit ":"
  ++ two_digits (Z.to_nat (seconds mod 60)).

Definition sample_console : Console :=
  {| console_width := 120;
     local_time := fun t => Ret (clock_text t);
     py_str := fun _ => Raise OverflowError;
     format_4f := fun v =>
       match v with
       | JNum (NFloat 1 4) => Ret (lit "0.2500")
       | _ => Raise OverflowError
       end |}.


(** A file whose only line is no JSON document: the word "garbage", 7000
    blanks and the text of a message *)
Definition garbage_line : str :=
  lit "garbage" ++ repeat 32%N (Z.to_nat 7000) ++ line_naive.
Definition garbage_file : list byte := encode_7bit (garbage_line ++ [NL]).
Definition garbage_world : World :=
  backfill_world [(lit "s1.jsonl", garbage_file)].

(** A session file holding one message whose cost total is the string
    "free" *)
Definition msg_free : list (str * json) :=
  [(lit "role", jstr "assistant");
   (lit "content", JList [text_block "hi"]);
   (lit "usage",
    JDict [(lit "cost", JDict [(lit "total", jstr "free")])])].
Definition line_free : str :=
  jlit "{'type': 'message', 'timestamp': '2026-01-01T10:00:00Z', 'message': {'role': 'assistant', 'content': [{'type': 'text', 'text': 'hi'}], 'usage': {'cost': {'total': 'free'}}}}".
Definition doc_free : list (str * json) :=
  [(lit "type", jstr "message");
   (lit "timestamp", jstr "2026-01-01T10:00:00Z");
   (lit "message", JDict msg_free)].
Definition free_library : Library :=
  table_library
    [(line_free, JDict doc_free); (line_list, doc_list)]
    [(lit "2026-01-01T10:00:00+00:00", stamp_utc)].
Definition record_free : ParsedMessage :=
  {| timestamp := stamp_utc; role := lit "assistant"; agent := lit "main";
     session_id := lit "s1"; model := JNull; provider := JNull;
     text := lit "hi"; cost := jstr "free"; stop_reason := JNull;
     raw := JDict doc_free |}.
Definition free_world : World :=
  backfill_world [(lit "s1.jsonl", encode_7bit (line_free ++ [NL]))].



End Sample.

(** * Properties *)

(** ** Strings *)

Lemma eqb_eq (a b : str) : PyStr.eqb a b = true <-> a = b.
Proof.
  revert b; induction a as [|x a IH]; intros [|y b]; simpl;
    try (split; [discriminate | discriminate]); try tauto.
  rewrite andb_true_iff, N.eqb_eq, IH.
  split; [intros [-> ->]; reflexivity | intros E; inversion E; auto].
Qed.

Lemma eqb_refl (a : str) : PyStr.eqb a a = true.
Proof. apply eqb_eq; reflexivity. Qed.

Lemma eqb_neq (a b : str) : PyStr.eqb a b = false <-> a <> b.
Proof.
  rewrite <- eqb_eq. destruct (PyStr.eqb a b); split; congruence.
Qed.

(** ** The line parser *)

Section Parser.
Context `{L : Library}.
Variables (now : Z) (line agent session_id : str).

Lemma dict_get_lookup d k dflt v :
  dict_lookup d k = Some v -> dict_get d k dflt = v.
Proof. unfold dict_get; intros ->; reflexivity. Qed.

Lemma dict_get_missing d k dflt :
  dict_lookup d k = None -> dict_get d k dflt = dflt.
Proof. unfold dict_get; intros ->; reflexivity. Qed.

Lemma is_str_true v s : is_str v s = true <-> v = JStr s.
Proof.
  destruct v; simpl; try (split; [discriminate | discriminate]).
  rewrite eqb_eq. split; [intros -> | intros E; inversion E]; reflexivity.
Qed.

(** What [parse_line] does with a message of a wanted role. *)
Lemma parse_line_message obj msg :
  json_loads line = Some (JDict obj) ->
  dict_lookup obj (lit "type") = Some (JStr (lit "message")) ->
  dict_lookup obj (lit "message") = Some (JDict msg) ->
  wanted_role (dict_get msg (lit "role") (JStr [])) = true ->
  parse_line now line agent session_id =
    (text <- extract_text msg ;;
     match text with
     | [] => Ret None
     | _ :: _ =>
         cost <- usage_cost msg ;;
         Ret (Some (make_message now obj msg agent session_id text cost))
     end).
Proof.
  intros Hl Ht Hm Hr. unfold parse_line. rewrite Hl.
  rewrite (dict_get_lookup _ _ _ Ht), (dict_get_lookup _ _ _ Hm), Hr.
  reflexivity.
Qed.

(** The lines that are filtered: a line that does not decode, a decoded
    object whose [type] is not "message", and a message-typed object
    whose nested message is missing or is an object with a role other
    than "user" and "assistant". *)
Lemma parse_line_filtered :
  (json_loads line = None
   \/ exists obj, json_loads line = Some (JDict obj)
       /\ (dict_lookup obj (lit "type") <> Some (JStr (lit "message"))
           \/ dict_lookup obj (lit "message") = None
           \/ exists msg, dict_lookup obj (lit "message") = Some (JDict msg)
               /\ dict_lookup msg (lit "role") <> Some (JStr (lit "user"))
               /\ dict_lookup msg (lit "role")
                    <> Some (JStr (lit "assistant")))) ->
  parse_line now line agent session_id = Ret None.
Proof.
  unfold parse_line.
  intros [-> | [obj [-> H]]]; [reflexivity|].
  destruct (is_str (dict_get obj (lit "type") JNull) (lit "message")) eqn:Ht;
    [simpl | reflexivity].
  apply is_str_true in Ht.
  assert (Htype : dict_lookup obj (lit "type") = Some (JStr (lit "message"))
                  \/ False).
  { unfold dict_get in Ht.
    destruct (dict_lookup obj (lit "type")); [left; congruence | discriminate]. }
  destruct Htype as [Htype|[]].
  destruct H as [H | [H | [msg [Hm [Hu Ha]]]]]; [contradiction | |].
  - rewrite (dict_get_missing _ _ _ H). reflexivity.
  - rewrite (dict_get_lookup _ _ _ Hm).
    destruct (wanted_role (dict_get msg (lit "role") (JStr []))) eqn:Hw;
      [|reflexivity].
    exfalso. unfold wanted_role in Hw. apply orb_true_iff in Hw.
    unfold dict_get in Hw.
    destruct (dict_lookup msg (lit "role")) as [r|];
      [|destruct Hw; discriminate].
    destruct Hw as [Hw|Hw]; apply is_str_true in Hw; subst r; congruence.
Qed.

(** C9.  What [parse_line] does with the lines that are no user or
    assistant message.  A line that [json.loads] rejects, a decoded
    object whose [type] is not "message", and a message-typed object
    whose nested message is missing or is an object with a role other
    than "user" and "assistant", give the absent result and raise
    nothing.  A line that decodes to anything but an object, and a
    message-typed object whose [message] is not an object, make
    [parse_line] raise AttributeError: there the absent result is not
    returned, and an error reaches the caller. *)
Theorem parse_line_filters_non_messages :
  ((json_loads line = None
    \/ exists obj, json_loads line = Some (JDict obj)
        /\ (dict_lookup obj (lit "type") <> Some (JStr (lit "message"))
            \/ dict_lookup obj (lit "message") = None
            \/ exists msg,
                 dict_lookup obj (lit "message") = Some (JDict msg)
                 /\ dict_lookup msg (lit "role") <> Some (JStr (lit "user"))
                 /\ dict_lookup msg (lit "role")
                      <> Some (JStr (lit "assistant")))) ->
   parse_line now line agent session_id = Ret None)
  /\ (forall v,
        json_loads line = Some v ->
        (forall obj, v <> JDict obj)
        \/ (exists obj u,
               v = JDict obj
               /\ dict_lookup obj (lit "type") = Some (JStr (lit "message"))
               /\ dict_lookup obj (lit "message") = Some u
               /\ forall msg, u <> JDict msg) ->
        parse_line now line agent session_id = Raise AttributeError).
Proof.
  split; [exact parse_line_filtered|].
  intros v Hl [Hv | [obj [u [-> [Ht [Hm Hu]]]]]]; unfold parse_line;
    rewrite Hl.
  - destruct v; try reflexivity. exfalso; eapply Hv; reflexivity.
  - rewrite (dict_get_lookup _ _ _ Ht), (dict_get_lookup _ _ _ Hm). simpl.
    destruct u; try reflexivity. exfalso; eapply Hu; reflexivity.
Qed.

(** C4.  A message-typed object whose [message] field is not itself an
    object makes [parse_line] raise AttributeError instead of returning
    the absent result. *)
Theorem parse_line_raises_on_non_object_message obj v :
  json_loads line = Some (JDict obj) ->
  dict_lookup obj (lit "type") = Some (JStr (lit "message")) ->
  dict_lookup obj (lit "message") = Some v ->
  (forall msg, v <> JDict msg) ->
  parse_line now line agent session_id = Raise AttributeError.
Proof.
  intros Hl Ht Hm Hv. unfold parse_line. rewrite Hl.
  rewrite (dict_get_lookup _ _ _ Ht), (dict_get_lookup _ _ _ Hm). simpl.
  destruct v; try reflexivity. exfalso; eapply Hv; reflexivity.
Qed.

Lemma all_strs_chars (s : str) :
  all_strs (List.map (fun c => JStr [c]) s)
  = Ret (List.map (fun c => [c]) s).
Proof.
  induction s as [|c s IH]; simpl; [reflexivity|]. rewrite IH. reflexivity.
Qed.

Lemma text_parts_chars (s : str) :
  text_parts (List.map (fun c => JStr [c]) s) = List.map (fun c => JStr [c]) s.
Proof. induction s as [|c s IH]; simpl; [|rewrite IH]; reflexivity. Qed.

(** C5.  When the content of a user or assistant message is a plain
    string, the loop over the content visits its characters one by one:
    the text of the record is the characters of the string joined by
    newlines, then stripped, and not the string itself. *)
Theorem plain_string_content_is_split obj msg s :
  json_loads line = Some (JDict obj) ->
  dict_lookup obj (lit "type") = Some (JStr (lit "message")) ->
  dict_lookup obj (lit "message") = Some (JDict msg) ->
  wanted_role (dict_get msg (lit "role") (JStr [])) = true ->
  dict_lookup msg (lit "content") = Some (JStr s) ->
  parse_line now line agent session_id =
    match strip (PyStr.join [NL] (List.map (fun c => [c]) s)) with
    | [] => Ret None
    | text =>
        cost <- usage_cost msg ;;
        Ret (Some (make_message now obj msg agent session_id text cost))
    end.
Proof.
  intros Hl Ht Hm Hr Hc.
  rewrite (parse_line_message Hl Ht Hm Hr).
  unfold extract_text. rewrite (dict_get_lookup _ _ _ Hc). simpl.
  unfold py_join. rewrite text_parts_chars, all_strs_chars. simpl.
  destruct (strip _); reflexivity.
Qed.

(** C8.  A timestamp string that [fromisoformat] reads as a naive datetime
    (one without an offset) is stored in the record as it is: the record's
    timestamp carries no timezone. *)
Theorem offsetless_timestamp_stays_naive obj ts dt r :
  json_loads line = Some (JDict obj) ->
  dict_lookup obj (lit "timestamp") = Some (JStr ts) ->
  fromisoformat (PyStr.replace 90%N (lit "+00:00") ts) = Some dt ->
  tzinfo dt = None ->
  parse_line now line agent session_id = Ret (Some r) ->
  timestamp r = dt /\ aware (timestamp r) = false.
Proof.
  intros Hl Hts Hf Hz. unfold parse_line. rewrite Hl.
  assert (Hp : parse_timestamp now obj = dt).
  { unfold parse_timestamp. rewrite (dict_get_lookup _ _ _ Hts), Hf.
    reflexivity. }
  destruct (negb _); [discriminate|].
  destruct (dict_get obj (lit "message") (JDict [])); try discriminate.
  destruct (negb _); [discriminate|].
  destruct (extract_text d) as [[|c t]|]; simpl; try discriminate.
  destruct (usage_cost d); simpl; [|discriminate].
  intros E; inversion E; subst r; simpl.
  rewrite Hp. unfold aware. rewrite Hz. auto.
Qed.

End Parser.

(** The sound half of C5: for a content that is a list of objects whose
    text fields are strings, the text is the text fields of the blocks of
    type "text", joined by newlines and stripped. *)
Lemma block_list_content_text (msg : list (str * json)) (blocks : list json) :
  dict_lookup msg (lit "content") = Some (JList blocks) ->
  Forall (fun b => exists d,
              b = JDict d
              /\ exists s, dict_get d (lit "text") (JStr []) = JStr s)
         blocks ->
  extract_text msg = Ret (strip (PyStr.join [NL] (block_texts blocks))).
Proof.
  intros Hc Hb. unfold extract_text, py_join.
  rewrite (dict_get_lookup _ _ _ Hc). simpl. clear Hc.
  assert (E : all_strs (text_parts blocks) = Ret (block_texts blocks)).
  { induction Hb as [|b blocks [d [-> [s Hs]]] _ IH]; simpl; [reflexivity|].
    destruct (is_str (dict_get d (lit "type") JNull) (lit "text"));
      [|exact IH].
    rewrite Hs. simpl. rewrite IH. reflexivity. }
  rewrite E. reflexivity.
Qed.

(** *** The parser at the sample inputs *)

(** A tool result is filtered; the line [[1, 2]], which decodes to a
    list, is not: the parser raises. *)
Lemma parse_line_filters_non_messages_witness :
  @json_loads Sample.parser_library Sample.line_tool_result
    = Some (JDict Sample.doc_tool_result)
  /\ @parse_line Sample.parser_library 0 Sample.line_tool_result
       (lit "main") (lit "s1") = Ret None
  /\ @json_loads Sample.extra_library Sample.line_list
     = Some Sample.doc_list
  /\ @parse_line Sample.extra_library 0 Sample.line_list
       (lit "main") (lit "s1") = Raise AttributeError.
Proof.
  split; [reflexivity|]. split; [|split; [reflexivity|]].
  - apply (@parse_line_filters_non_messages Sample.parser_library 0
             Sample.line_tool_result (lit "main") (lit "s1")).
    right. exists Sample.doc_tool_result. split; [reflexivity|].
    right; right. eexists. split; [reflexivity|].
    split; vm_compute; discriminate.
  - apply (proj2 (@parse_line_filters_non_messages Sample.extra_library 0
                    Sample.line_list (lit "main") (lit "s1"))
             Sample.doc_list eq_refl).
    left. intros obj; discriminate.
Defined.

Lemma parse_line_raises_on_non_object_message_witness :
  @json_loads Sample.parser_library Sample.line_message_is_string
    = Some (JDict Sample.doc_message_is_string)
  /\ @parse_line Sample.parser_library 0 Sample.line_message_is_string
       (lit "main") (lit "s1") = Raise AttributeError.
Proof.
  split; [reflexivity|].
  apply (@parse_line_raises_on_non_object_message Sample.parser_library
           0 _ _ _ Sample.doc_message_is_string (Sample.jstr "hi"));
    [reflexivity | reflexivity | reflexivity | intros msg; discriminate].
Defined.

Lemma plain_string_content_is_split_witness :
  exists r,
    @parse_line Sample.parser_library 0 Sample.line_plain_content
      (lit "main") (lit "s1") = Ret (Some r)
    /\ text r = [104; 10; 105]%N
    /\ text r <> lit "hi".
Proof.
  eexists. split; [|split].
  - rewrite (@plain_string_content_is_split Sample.parser_library 0
               Sample.line_plain_content (lit "main") (lit "s1")
               Sample.doc_plain_content
               [(lit "role", Sample.jstr "user");
                (lit "content", Sample.jstr "hi")]
               (lit "hi"));
      reflexivity.
  - reflexivity.
  - vm_compute; discriminate.
Defined.

Lemma offsetless_timestamp_stays_naive_witness :
  exists r,
    @parse_line Sample.parser_library 0 Sample.line_naive
      (lit "main") (lit "s1") = Ret (Some r)
    /\ timestamp r = Sample.stamp_naive
    /\ aware (timestamp r) = false.
Proof.
  eexists. split; [reflexivity|].
  apply (@offsetless_timestamp_stays_naive Sample.parser_library 0
           Sample.line_naive (lit "main") (lit "s1") Sample.doc_naive
           (lit "2026-01-01T10:00:00"));
    reflexivity.
Defined.

(** ** The renderer: the text of the display line *)

Lemma startswith_app (p t : str) : PyStr.startswith p (p ++ t) = true.
Proof. induction p; simpl; [|rewrite N.eqb_refl]; auto. Qed.

Lemma startswith_inv (p s : str) :
  PyStr.startswith p s = true -> exists t, s = p ++ t.
Proof.
  revert s; induction p as [|x p IH]; intros s H; simpl in *.
  - exists s; reflexivity.
  - destruct s as [|y s]; [discriminate|].
    apply andb_true_iff in H as [E H]. apply N.eqb_eq in E; subst y.
    destruct (IH _ H) as [t ->]. exists t; reflexivity.
Qed.

(** [find] returns the position of the first occurrence. *)
Lemma find_some (sub s : str) (i : nat) :
  PyStr.find sub s = Some i ->
  exists pre post,
    s = pre ++ sub ++ post /\ length pre = i
    /\ forall pre' post', s = pre' ++ sub ++ post' ->
                          (i <= length pre')%nat.
Proof.
  revert i; induction s as [|c s IH]; intros i; simpl.
  - destruct (PyStr.startswith sub []) eqn:E; [|discriminate].
    intros [= <-]. destruct (startswith_inv _ _ E) as [t Ht].
    exists [], t. repeat split; auto. intros; lia.
  - destruct (PyStr.startswith sub (c :: s)) eqn:E.
    + intros [= <-]. destruct (startswith_inv _ _ E) as [t Ht].
      exists [], t. repeat split; auto. intros; lia.
    + destruct (PyStr.find sub s) as [j|] eqn:F; [|discriminate].
      intros [= <-]. destruct (IH j eq_refl) as [pre [post [-> [Hl Hmin]]]].
      exists (c :: pre), post. repeat split; simpl; auto.
      intros [|c' pre'] post' H; simpl in H.
      * rewrite H, startswith_app in E. discriminate.
      * inversion H; subst. simpl. apply le_n_S. eapply Hmin; eauto.
Qed.

Lemma find_none (sub s : str) :
  PyStr.find sub s = None -> forall pre post, s <> pre ++ sub ++ post.
Proof.
  induction s as [|c s IH]; simpl.
  - destruct (PyStr.startswith sub []) eqn:E; [discriminate|].
    intros _ pre post H. symmetry in H.
    apply app_eq_nil in H as [-> H]. apply app_eq_nil in H as [-> _].
    discriminate.
  - destruct (PyStr.startswith sub (c :: s)) eqn:E; [discriminate|].
    destruct (PyStr.find sub s); [discriminate|]. intros _ pre post H.
    destruct pre as [|c' pre]; simpl in H.
    + rewrite H, startswith_app in E. discriminate.
    + inversion H; subst. eapply IH; eauto.
Qed.




Example format_message_text_prefixed :
  format_message_text 120 Sample.msg_prefixed = lit "hello".
Proof. reflexivity. Qed.

Example format_message_text_assistant :
  format_message_text 120 Sample.msg_assistant
  = lit "[note] see [User Message] above".
Proof. reflexivity. Qed.

(** ** The source registry *)

Lemma path_eqb_eq (p q : Path) : path_eqb p q = true <-> p = q.
Proof.
  unfold path_eqb. rewrite andb_true_iff, !eqb_eq.
  destruct p, q; simpl. split; [intros [-> ->]; reflexivity|].
  intros E; inversion E; auto.
Qed.

Lemma path_eqb_refl (p : Path) : path_eqb p p = true.
Proof. apply path_eqb_eq; reflexivity. Qed.

Lemma lookup_app (files : Registry) (q p : Path) (e : Source) :
  lookup (files ++ [(q, e)]) p =
    match lookup files p with
    | Some x => Some x
    | None => if path_eqb q p then Some e else None
    end.
Proof.
  induction files as [|[k v] files IH]; simpl; [reflexivity|].
  destruct (path_eqb k p); [reflexivity | exact IH].
Qed.

Lemma lookup_none_not_in (files : Registry) (p : Path) :
  lookup files p = None -> ~ In p (List.map fst files).
Proof.
  induction files as [|[k v] files IH]; simpl; [tauto|].
  destruct (path_eqb k p) eqn:E; [discriminate|].
  intros H [-> | Hin]; [rewrite path_eqb_refl in E; discriminate|].
  exact (IH H Hin).
Qed.

(** The number of sources the registry holds for a path. *)
Lemma count_app (files : Registry) (q p : Path) (e : Source) :
  length (filter (fun kv => path_eqb (fst kv) p) (files ++ [(q, e)]))
  = (length (filter (fun kv => path_eqb (fst kv) p) files)
     + if path_eqb q p then 1 else 0)%nat.
Proof.
  rewrite filter_app, length_app. simpl. destruct (path_eqb q p); reflexivity.
Qed.

Lemma lookup_none_count (files : Registry) (p : Path) :
  lookup files p = None ->
  length (filter (fun kv => path_eqb (fst kv) p) files) = 0%nat.
Proof.
  induction files as [|[k v] files IH]; simpl; [reflexivity|].
  destruct (path_eqb k p); [discriminate | exact IH].
Qed.

Section Registry.
Variable w : World.

(** One step of discovery leaves a known path as it is. *)
Lemma scan_path_known ag files q p src :
  lookup files p = Some src ->
  lookup (scan_path w ag files q) p = Some src.
Proof.
  intros H. unfold scan_path.
  destruct (known files q); [exact H|].
  destruct (file_text w q); [|exact H].
  rewrite lookup_app, H. reflexivity.
Qed.

Lemma scan_path_count ag files q p :
  (length (filter (fun kv => path_eqb (fst kv) p) files) <= 1)%nat ->
  (lookup files p = None ->
   length (filter (fun kv => path_eqb (fst kv) p) files) = 0%nat) ->
  (length (filter (fun kv => path_eqb (fst kv) p) (scan_path w ag files q))
   <= 1)%nat
  /\ (lookup (scan_path w ag files q) p = None ->
      length (filter (fun kv => path_eqb (fst kv) p)
                (scan_path w ag files q)) = 0%nat).
Proof.
  intros H1 H0. unfold scan_path, known.
  destruct (lookup files q) eqn:Eq; [auto|].
  destruct (file_text w q); [|auto].
  rewrite count_app, lookup_app.
  destruct (path_eqb q p) eqn:E.
  - apply path_eqb_eq in E; subst q. rewrite Eq, (H0 Eq).
    split; [simpl; lia | discriminate].
  - destruct (lookup files p); split; try lia; try discriminate.
    intros _. rewrite H0 by reflexivity. reflexivity.
Qed.

(** A path that enters the registry in a step is the path scanned, opened
    successfully, with the cursor at the end of the text. *)
Lemma scan_path_new ag files q p src :
  lookup files p = None ->
  lookup (scan_path w ag files q) p = Some src ->
  exists content,
    file_text w p = Some content
    /\ src = ({| h_path := p; h_pos := length content |}, ag,
              extract_session_id (p_name p)).
Proof.
  intros Hn. unfold scan_path.
  destruct (known files q); [congruence|].
  destruct (file_text w q) as [content|] eqn:Ef; [|congruence].
  rewrite lookup_app, Hn.
  destruct (path_eqb q p) eqn:E; [|discriminate].
  apply path_eqb_eq in E; subst q. intros [= <-].
  exists content; auto.
Qed.

Lemma scan_path_inv p old ag files q :
  scan_inv w p old files -> scan_inv w p old (scan_path w ag files q).
Proof.
  intros [H1 [H0 Ho]].
  destruct (scan_path_count ag files q p H1 H0) as [H1' H0'].
  split; [exact H1'|]. split; [exact H0'|].
  destruct old as [src|].
  - apply scan_path_known; exact Ho.
  - intros src Hs. destruct (lookup files p) as [src0|] eqn:El.
    + rewrite (scan_path_known ag files q p El) in Hs.
      inversion Hs; subst. apply Ho; reflexivity.
    + destruct (scan_path_new ag files q p El Hs) as [c [Hc ->]].
      exists c, ag; auto.
Qed.

Lemma scan_agent_inv p old incl ag files :
  scan_inv w p old files -> scan_inv w p old (scan_agent w incl files ag).
Proof.
  unfold scan_agent. generalize (get_session_files w ag incl) as paths.
  intros paths; revert files.
  induction paths as [|q paths IH]; intros files H; simpl; [exact H|].
  apply IH, scan_path_inv, H.
Qed.

Lemma scan_registry_inv p old incl ags files :
  scan_inv w p old files -> scan_inv w p old (scan_registry w ags incl files).
Proof.
  unfold scan_registry. revert files.
  induction ags as [|ag ags IH]; intros files H; simpl; [exact H|].
  apply IH, scan_agent_inv, H.
Qed.

(** C7.  Discovery over a registry that already holds a source for a path
    leaves that source as it is, handle and cursor included, and the
    registry still holds exactly one source for the path. *)
Theorem rescan_keeps_known_source (t : SessionTailer) (p : Path)
  (src : Source) :
  length (filter (fun kv => path_eqb (fst kv) p) (_files t)) = 1%nat ->
  lookup (_files t) p = Some src ->
  lookup (_files (_scan_files w t)) p = Some src
  /\ length (filter (fun kv => path_eqb (fst kv) p)
               (_files (_scan_files w t))) = 1%nat.
Proof.
  intros Hc Hl.
  assert (Hinv : scan_inv w p (Some src) (_files t)).
  { split; [lia|]. split; [congruence | exact Hl]. }
  apply (scan_registry_inv (include_deleted t) (agents t)) in Hinv.
  destruct Hinv as [H1 [H0 Hs]]. simpl. split; [exact Hs|].
  destruct (length (filter (fun kv => path_eqb (fst kv) p)
                      (scan_registry w (agents t) (include_deleted t)
                         (_files t)))) as [|[|n]] eqn:E; [|reflexivity|lia].
  exfalso.
  assert (In (p, src) (filter (fun kv => path_eqb (fst kv) p)
                         (scan_registry w (agents t) (include_deleted t)
                            (_files t)))).
  { apply filter_In. split; [|apply path_eqb_refl].
    clear - Hs. revert Hs.
    generalize (scan_registry w (agents t) (include_deleted t) (_files t)).
    intros files; induction files as [|[k v] files IH]; simpl;
      [discriminate|].
    destruct (path_eqb k p) eqn:Ek.
    - apply path_eqb_eq in Ek; subst k. intros [= ->]. left; reflexivity.
    - intros H; right; exact (IH H). }
  apply length_zero_iff_nil in E. rewrite E in H. exact H.
Qed.

End Registry.

(** ** The read step *)

Lemma readlines_readline (s : str) :
  s <> [] -> readlines s = fst (readline s) :: readlines (snd (readline s)).
Proof.
  induction s as [|c s IH]; [congruence|]. intros _. simpl.
  destruct (N.eqb c NL); [reflexivity|].
  destruct s as [|d s]; [reflexivity|].
  rewrite IH by discriminate.
  destruct (readline (d :: s)); reflexivity.
Qed.

Lemma readlines_concat (s : str) : concat (readlines s) = s.
Proof.
  induction s as [|c s IH]; simpl; [reflexivity|].
  destruct (N.eqb c NL); simpl; [rewrite IH; reflexivity|].
  destruct (readlines s); simpl in *; rewrite <- IH; reflexivity.
Qed.

(** Text without a newline is returned by [readline] as one line. *)
Lemma readlines_unterminated (s : str) :
  s <> [] -> ~ In NL s -> readlines s = [s].
Proof.
  induction s as [|c s IH]; [congruence|]. intros _ Hn. simpl.
  destruct (N.eqb_spec c NL) as [->|_]; [exfalso; apply Hn; left; reflexivity|].
  destruct s as [|d s]; [reflexivity|].
  rewrite IH; [reflexivity | discriminate | intros H; apply Hn; right; exact H].
Qed.

Lemma readlines_skipn_length (k : nat) (s : str) :
  (length (readlines (skipn k s)) <= length (readlines s))%nat.
Proof.
  revert k; induction s as [|c s IH]; intros [|k]; simpl; try lia.
  specialize (IH k).
  destruct (N.eqb c NL); simpl; [lia|].
  destruct (readlines s); simpl in *; lia.
Qed.

Lemma skipn_length_app {A} (a b : list A) : skipn (length a) (a ++ b) = b.
Proof. induction a; simpl; auto. Qed.

Section ReadStep.
Context `{L : Library} `{C : Console}.
Variable now : Z.

(** The records and the exception of a pass do not depend on where the
    cursor stands, only on the lines read. *)
Lemma drain_handle_irrelevant (agent session_id : str) (lines : list str)
  (fh fh' : Handle) :
  emitted (drain now agent session_id fh lines)
  = emitted (drain now agent session_id fh' lines)
  /\ raised (drain now agent session_id fh lines)
     = raised (drain now agent session_id fh' lines).
Proof.
  revert fh fh'; induction lines as [|l lines IH]; intros fh fh'; simpl;
    [auto|].
  destruct (strip l); [apply IH|].
  destruct (parse_line now (c :: s) agent session_id) as [[m|]|e]; simpl;
    [|apply IH|auto].
  destruct (format_message m true) as [line|e]; simpl; [|auto].
  destruct (IH (advance fh l) (advance fh' l)) as [-> ->]. auto.
Qed.

Lemma drain_emitted_length (agent session_id : str) (lines : list str)
  (fh : Handle) :
  (length (emitted (drain now agent session_id fh lines)) <= length lines)%nat.
Proof.
  revert fh; induction lines as [|l lines IH]; intros fh; simpl; [lia|].
  destruct (strip l); [specialize (IH (advance fh l)); lia|].
  destruct (parse_line now (c :: s) agent session_id) as [[m|]|e];
    [destruct (format_message m true) as [line|e]| |]; simpl;
    try specialize (IH (advance fh l)); lia.
Qed.

(** A pass that raises nothing leaves the cursor after all it read. *)
Lemma drain_position (agent session_id : str) (lines : list str)
  (fh : Handle) :
  raised (drain now agent session_id fh lines) = None ->
  h_pos (handle (drain now agent session_id fh lines))
  = (h_pos fh + length (concat lines))%nat.
Proof.
  revert fh; induction lines as [|l lines IH]; intros fh; simpl; [lia|].
  rewrite length_app.
  destruct (strip l).
  - intros H. rewrite (IH _ H). simpl. lia.
  - destruct (parse_line now (c :: s) agent session_id) as [[m|]|e];
      [destruct (format_message m true) as [line|e]| |]; simpl;
      intros H; try discriminate; rewrite (IH _ H); simpl; lia.
Qed.

(** The cursor never moves back. *)
Lemma drain_monotone (agent session_id : str) (lines : list str)
  (fh : Handle) :
  (h_pos fh <= h_pos (handle (drain now agent session_id fh lines)))%nat.
Proof.
  revert fh; induction lines as [|l lines IH]; intros fh; simpl; [lia|].
  destruct (strip l).
  - specialize (IH (advance fh l)). simpl in IH. lia.
  - destruct (parse_line now (c :: s) agent session_id) as [[m|]|e];
      [destruct (format_message m true) as [line|e]| |]; simpl;
      try (specialize (IH (advance fh l)); simpl in IH); lia.
Qed.

(** C2.  A source that discovery registers has its cursor at the end of
    the text the file held then.  From then on, wherever the cursor has
    moved to, a pass gives the parser only lines of the text appended
    since the registration: it prints at most one record per appended
    line, none for what was there before, and leaves the cursor no
    further back. *)
Theorem new_source_reads_only_appended_text (w : World) (t : SessionTailer)
  (p : Path) (fh : Handle) (ag sid content : str) :
  lookup (_files t) p = None ->
  lookup (_files (_scan_files w t)) p = Some (fh, ag, sid) ->
  file_text w p = Some content ->
  h_pos fh = length content
  /\ forall (appended : str) (fh' : Handle),
       (h_pos fh <= h_pos fh')%nat ->
       let r := read_source now (content ++ appended) (fh', ag, sid) in
       r = drain now ag sid fh'
             (readlines (skipn (h_pos fh' - length content) appended))
       /\ (length (emitted r) <= length (readlines appended))%nat
       /\ (h_pos fh' <= h_pos (handle r))%nat.
Proof.
  intros Hn Hs Hc.
  assert (Hinv : scan_inv w p None (_files t)).
  { split; [rewrite (lookup_none_count _ _ Hn); lia|].
    split; [intros _; apply lookup_none_count, Hn|].
    intros src; congruence. }
  apply (scan_registry_inv (include_deleted t) (agents t)) in Hinv.
  destruct Hinv as [_ [_ Hnew]]. simpl in Hs.
  destruct (Hnew _ Hs) as [c [a [Hc' E]]].
  rewrite Hc in Hc'. inversion Hc'; subst c. inversion E; subst.
  split; [reflexivity|]. intros appended fh' Hle. cbv zeta.
  unfold read_source. cbn [h_pos] in Hle.
  rewrite skipn_app, skipn_all2 by exact Hle. cbn [app].
  split; [reflexivity|]. split; [|apply drain_monotone].
  etransitivity; [apply drain_emitted_length | apply readlines_skipn_length].
Qed.

(** C1.  Text appended without a terminating newline is read by the next
    pass as a line of its own: the cursor moves past it, and the parser
    is given the fragment.  When the rest of the line arrives, the pass
    reads from there on, so the parser never sees the whole line. *)
Theorem partial_trailing_line_is_consumed (agent session_id : str)
  (fh : Handle) (content frag : str) :
  h_pos fh = length content ->
  frag <> [] ->
  ~ In NL frag ->
  let r1 := read_source now (content ++ frag) (fh, agent, session_id) in
  r1 = drain now agent session_id fh [frag]
  /\ h_pos (handle r1) = length (content ++ frag)
  /\ forall rest,
       read_source now (content ++ frag ++ rest)
         (handle r1, agent, session_id)
       = drain now agent session_id (handle r1) (readlines rest).
Proof.
  intros Hp Hne Hnl. cbv zeta. unfold read_source.
  rewrite Hp, skipn_length_app, (readlines_unterminated Hne Hnl).
  split; [reflexivity|].
  assert (Hpos : h_pos (handle (drain now agent session_id fh [frag]))
                 = length (content ++ frag)).
  { simpl. rewrite length_app, <- Hp.
    destruct (strip frag); [reflexivity|].
    destruct (parse_line now (c :: s) agent session_id) as [[m|]|e];
      [destruct (format_message m true) as [line|e]| |]; reflexivity. }
  split; [exact Hpos|].
  intros rest. rewrite Hpos, app_assoc, skipn_length_app. reflexivity.
Qed.

End ReadStep.

(** *** The registry and the read step at the sample inputs *)

Lemma rescan_keeps_known_source_witness :
  let t1 := _scan_files (Sample.world_with Sample.ten_lines)
              Sample.fresh_tailer in
  let w2 := Sample.world_with (Sample.ten_lines ++ Sample.three_lines) in
  lookup (_files t1) Sample.session_path = Some Sample.registered_source
  /\ lookup (_files (_scan_files w2 t1)) Sample.session_path
     = Some Sample.registered_source
  /\ length (filter (fun kv => path_eqb (fst kv) Sample.session_path)
               (_files (_scan_files w2 t1))) = 1%nat.
Proof.
  cbv zeta. split; [reflexivity|].
  apply (@rescan_keeps_known_source
           (Sample.world_with (Sample.ten_lines ++ Sample.three_lines))
           (_scan_files (Sample.world_with Sample.ten_lines)
              Sample.fresh_tailer)
           Sample.session_path Sample.registered_source);
    reflexivity.
Defined.

Lemma new_source_reads_only_appended_text_witness :
  h_pos (fst (fst Sample.registered_source)) = length Sample.ten_lines
  /\ (length (emitted (@read_source Sample.parser_library
                         Sample.sample_console 0
                         (Sample.ten_lines ++ Sample.three_lines)
                         Sample.registered_source)) <= 3)%nat.
Proof.
  destruct (@new_source_reads_only_appended_text Sample.parser_library
              Sample.sample_console 0
              (Sample.world_with Sample.ten_lines) Sample.fresh_tailer
              Sample.session_path
              {| h_path := Sample.session_path;
                 h_pos := length Sample.ten_lines |}
              (lit "main") (lit "s1") Sample.ten_lines
              eq_refl eq_refl eq_refl) as [H1 H2].
  split; [exact H1|].
  destruct (H2 Sample.three_lines
              {| h_path := Sample.session_path;
                 h_pos := length Sample.ten_lines |} (le_n _))
    as [_ [H _]].
  exact H.
Defined.

(** The three appended lines are messages, and all three are printed. *)
Example three_appended_lines_are_printed :
  length (emitted (@read_source Sample.parser_library Sample.sample_console 0
                     (Sample.ten_lines ++ Sample.three_lines)
                     Sample.registered_source)) = 3%nat.
Proof. vm_compute. reflexivity. Qed.

Lemma first_piece_unterminated : ~ In NL Sample.first_piece.
Proof.
  intros H. vm_compute in H.
  repeat (destruct H as [H|H]; [discriminate H|]). exact H.
Qed.

(** A message line written in two pieces is lost: the first pass consumes
    the first piece and prints nothing, the second pass reads the second
    piece alone and prints nothing, although the line the file then holds
    is a message. *)
Lemma partial_trailing_line_is_consumed_witness :
  let src := (Sample.handle_at_start, lit "main", lit "s1") in
  let r1 := @read_source Sample.parser_library
      Sample.sample_console 0 Sample.first_piece src in
  let r2 := @read_source Sample.parser_library Sample.sample_console 0
              (Sample.first_piece ++ Sample.second_piece)
              (handle r1, lit "main", lit "s1") in
  Sample.first_piece ++ Sample.second_piece = Sample.line_naive ++ [NL]
  /\ (exists m, @parse_line Sample.parser_library 0 Sample.line_naive
                  (lit "main") (lit "s1") = Ret (Some m))
  /\ emitted r1 = [] /\ h_pos (handle r1) = length Sample.first_piece
  /\ emitted r2 = [] /\ raised r2 = None
  /\ h_pos (handle r2) = length (Sample.line_naive ++ [NL]).
Proof.
  cbv zeta.
  destruct (@partial_trailing_line_is_consumed Sample.parser_library
              Sample.sample_console 0
              (lit "main") (lit "s1") Sample.handle_at_start []
              Sample.first_piece eq_refl)
    as [E1 [E2 E3]].
  - discriminate.
  - exact first_piece_unterminated.
  - simpl app in *. cbv zeta in *.
    split; [reflexivity|]. split; [eexists; reflexivity|].
    split; [rewrite E1; reflexivity|]. split; [exact E2|].
    rewrite (E3 Sample.second_piece), E1.
    split; [reflexivity|]. split; reflexivity.
Defined.

(** ** The backfill *)

Section StableSort.
Variables (A : Type) (key : A -> Z).

Let before (y x : A) : bool := key y <? key x.






End StableSort.

(** [l[-n:]] for a positive [n]: the last [n] items, or all of them. *)
Lemma slice_from_last {A} (n : Z) (l : list A) :
  0 < n -> slice_from (- n) l = skipn (length l - Z.to_nat n) l.
Proof.
  intros Hn. unfold slice_from, clamp_index.
  destruct (Z.ltb_spec (- n) 0); [|lia]. f_equal. lia.
Qed.

Lemma slice_from_short {A} (n : Z) (l : list A) :
  0 < n -> Z.of_nat (length l) <= n -> slice_from (- n) l = l.
Proof.
  intros Hn Hl. rewrite slice_from_last by exact Hn.
  replace (length l - Z.to_nat n)%nat with 0%nat by lia. reflexivity.
Qed.

Section Backfill.
Context `{L : Library} `{C : Console}.
Variables (now : Z) (w : World).

(** What [_tail_lines] does with a file larger than the region it reads.
    The region starts inside the file; its lines are returned from the
    first on, unless there are more than [max_lines] of them. *)
Lemma tail_lines_region (path : Path) (max_lines : Z) (bytes : list byte) :
  file_bytes w path = Some bytes ->
  0 < max_lines ->
  max_lines * 2048 < Z.of_nat (length bytes) ->
  _tail_lines w path max_lines =
    slice_from (- max_lines)
      (PyStr.split NL
         (strip (decode_utf8_replace
                   (skipn (length bytes - Z.to_nat (max_lines * 2048))
                      bytes)))).
Proof.
  intros Hf Hm Hbig. unfold _tail_lines. rewrite Hf. cbv zeta.
  rewrite Z.min_r by lia. rewrite Z.max_r by lia.
  replace (Z.to_nat (Z.of_nat (length bytes) - max_lines * 2048))
    with (length bytes - Z.to_nat (max_lines * 2048))%nat by lia.
  reflexivity.
Qed.

(** A record the parser gives for a line is among the records collected
    for the file, provided no line raises. *)
Lemma parse_lines_collects (agent session_id : str) (lines : list str)
  (ms : list ParsedMessage) (l : str) (m : ParsedMessage) :
  parse_lines now agent session_id lines = Ret ms ->
  In l lines ->
  parse_line now l agent session_id = Ret (Some m) ->
  In m ms.
Proof.
  revert ms; induction lines as [|x lines IH]; intros ms Hp Hin Hl;
    [destruct Hin|].
  simpl in Hp.
  destruct (parse_line now x agent session_id) as [r|e] eqn:Ex;
    [|discriminate].
  simpl in Hp.
  destruct (parse_lines now agent session_id lines) as [rest|e] eqn:Er;
    [|discriminate].
  simpl in Hp. injection Hp as <-.
  destruct Hin as [->|Hin].
  - rewrite Hl in Ex. injection Ex as <-. left; reflexivity.
  - specialize (IH rest eq_refl Hin Hl).
    destruct r; [right|]; exact IH.
Qed.

Lemma split_hd_in (sep : char) (s : str) :
  In (hd [] (PyStr.split sep s)) (PyStr.split sep s).
Proof.
  destruct s as [|c s]; simpl; [left; reflexivity|].
  destruct (N.eqb c sep); [left; reflexivity|].
  destruct (PyStr.split sep s); left; reflexivity.
Qed.

(** C6.  When the file is larger than the region read, the region starts
    inside the file, and [_tail_lines] returns the last [max_lines] of
    the lines of the region.  When the region holds at most [max_lines]
    lines it returns all of them: the first one, whose start was cut by
    the seek, is not discarded.  The backfill hands it to the parser
    like any other line, so that a record the parser gives for it is
    among the records collected, although it is no line of the file. *)
Theorem tail_lines_keeps_first_fragment (path : Path) (max_lines : Z)
  (bytes : list byte) :
  file_bytes w path = Some bytes ->
  0 < max_lines ->
  max_lines * 2048 < Z.of_nat (length bytes) ->
  let region := skipn (length bytes - Z.to_nat (max_lines * 2048)) bytes in
  let lines := PyStr.split NL (strip (decode_utf8_replace region)) in
  _tail_lines w path max_lines = slice_from (- max_lines) lines
  /\ (Z.of_nat (length lines) <= max_lines ->
      _tail_lines w path max_lines = lines
      /\ forall (n : Z) (agent : str) (ms : list ParsedMessage)
                (m : ParsedMessage),
           max_lines = n * 3 ->
           collect_paths now w n agent [path] = Ret ms ->
           parse_line now (hd [] lines) agent
             (extract_session_id (p_name path)) = Ret (Some m) ->
           In m ms).
Proof.
  intros Hf Hm Hbig region lines.
  assert (E : _tail_lines w path max_lines = slice_from (- max_lines) lines)
    by exact (tail_lines_region _ Hf Hm Hbig).
  split; [exact E|]. intros Hl.
  assert (E' : _tail_lines w path max_lines = lines)
    by (rewrite E; apply slice_from_short; assumption).
  split; [exact E'|].
  intros n agent ms m Hn Hc Hp. simpl in Hc. rewrite <- Hn, E' in Hc.
  destruct (parse_lines now agent (extract_session_id (p_name path)) lines)
    as [ms0|e] eqn:Ep; [|discriminate].
  simpl in Hc. injection Hc as <-. rewrite app_nil_r.
  apply (@parse_lines_collects agent _ lines ms0 (hd [] lines) m Ep);
    [apply split_hd_in | exact Hp].
Qed.







End Backfill.

(** *** The backfill at the sample inputs *)

(** The file holds one line, which is no JSON document and therefore no
    message.  The region read for [n = 1] starts among its blanks; what
    is left of the line is the text of a message, and the backfill prints
    a record for it. *)
Lemma tail_lines_keeps_first_fragment_witness :
  @file_lines Sample.parser_library Sample.garbage_world Sample.session_path
    = [Sample.garbage_line]
  /\ @parse_line Sample.parser_library 0 Sample.garbage_line (lit "main")
       (lit "s1") = Ret None
  /\ @held_by_sources Sample.parser_library 0 Sample.garbage_world false
       [lit "main"] = Ret []
  /\ @_tail_lines Sample.parser_library Sample.garbage_world
       Sample.session_path 3 = [Sample.line_naive]
  /\ @_show_last_n Sample.parser_library Sample.sample_console 0
       Sample.garbage_world [lit "main"] 1 false = Ret [Sample.record_naive].
Proof.
  split; [vm_compute; reflexivity|]. split; [vm_compute; reflexivity|].
  split; [vm_compute; reflexivity|]. split; [|vm_compute; reflexivity].
  destruct (@tail_lines_keeps_first_fragment Sample.parser_library 0
              Sample.garbage_world Sample.session_path 3
              Sample.garbage_file) as [_ H];
    [reflexivity | reflexivity | vm_compute; reflexivity |].
  destruct H as [E _]; [vm_compute; discriminate|].
  rewrite E. vm_compute. reflexivity.
Defined.

(** The long first line of a file: the region read for [max_lines = 3]
    starts inside it, and what is left of it is returned as the first
    line. *)
Example tail_lines_on_a_long_first_line :
  @_tail_lines Sample.parser_library Sample.long_world Sample.session_path 3
  = [repeat 120%N (Z.to_nat 6142 - length Sample.line_naive);
     Sample.line_naive].
Proof. vm_compute. reflexivity. Qed.



(** The first line returned can be a fragment: the file starts with a
    line of 7000 characters, the region read for [max_lines = 3] starts
    inside that line, and the first candidate line returned is the tail
    of it, which is no line of the file. *)
Lemma tail_lines_returns_fragment :
  let lines := @_tail_lines Sample.parser_library Sample.long_world
                 Sample.session_path 3 in
  3 * 2048 < Z.of_nat (length Sample.long_file)
  /\ PyStr.split NL (strip (Sample.decode_7bit Sample.long_file))
     = [repeat 120%N (Z.to_nat 7000); Sample.line_naive]
  /\ hd [] lines = repeat 120%N (Z.to_nat 6142 - length Sample.line_naive)
  /\ length (hd [] lines) <> Z.to_nat 7000.
Proof.
  cbv zeta. repeat split; vm_compute; solve [reflexivity | discriminate].
Qed.

(** ** The read pass of the loop *)

Section Pass.
Context `{L : Library} `{C : Console}.

(** With one source registered, the pass of the loop is the read of that
    source on the text its file holds. *)
Lemma read_pass_single (now : Z) (w : World) (p : Path) (fh : Handle)
  (ag sid content : str) :
  file_text w (h_path fh) = Some content ->
  read_pass now w [(p, (fh, ag, sid))] =
    let r := read_source now content (fh, ag, sid) in
    (emitted r, [(p, (handle r, ag, sid))], raised r).
Proof.
  intros Hf. simpl. rewrite Hf.
  destruct (raised (drain now ag sid fh (readlines (skipn (h_pos fh) content))));
    [reflexivity|].
  rewrite app_nil_r. reflexivity.
Qed.

End Pass.

(** A cycle of the loop on the sample file, three lines after discovery:
    the three messages are printed and the cycle does not sleep. *)
Example cycle_prints_appended_messages :
  let t1 := _scan_files (Sample.world_with Sample.ten_lines)
              Sample.fresh_tailer in
  let '(events, t2, sleeps, e) :=
    @cycle Sample.parser_library Sample.sample_console 0
      (Sample.world_with (Sample.ten_lines ++ Sample.three_lines)) t1 in
  length events = 3%nat /\ sleeps = false /\ e = None
  /\ lookup (_files t2) Sample.session_path
     = Some ({| h_path := Sample.session_path;
                h_pos := length (Sample.ten_lines ++ Sample.three_lines) |},
             lit "main", lit "s1").
Proof. vm_compute. repeat split; reflexivity. Qed.

(** A cycle in which the parser raises on the first line read: nothing is
    printed, the exception leaves the loop, and the cycle does not
    sleep. *)
Example cycle_does_not_sleep_after_an_exception :
  let t := {| agents := [lit "main"]; include_deleted := false;
              poll_interval := 500; new_files_interval := 5000;
              _files := [(Sample.session_path,
                          (Sample.handle_at_start, lit "main", lit "s1"))];
              _last_scan := 0 |} in
  let '(events, t2, sleeps, e) :=
    @cycle Sample.extra_library Sample.sample_console 0
      (Sample.world_with (Sample.line_list ++ [NL])) t in
  events = [] /\ sleeps = false /\ e = Some AttributeError.
Proof. vm_compute. repeat split; reflexivity. Qed.

(** The display line of a record with all its fields. *)
Example format_message_sample :
  @format_message Sample.sample_console Sample.record_full true
  = Ret [(lit "10:00:00", Some (lit "dim")); (lit " ", None);
         (lit "[main]", Some (lit "cyan")); (lit " ", None);
         (lit "(s1)", Some (lit "dim")); (lit " ", None);
         (lit "AI(m1) ", Some (lit "bold magenta"));
         (lit "$0.2500 ", Some (lit "yellow"));
         (lit "hello", None)].
Proof. vm_compute. reflexivity. Qed.

(** A record whose cost total is a string is selected by the backfill,
    and the renderer raises TypeError on it at [msg.cost > 0]: the
    backfill raises and returns nothing. *)
Example show_last_n_raises_on_a_string_cost :
  @collect_agents Sample.free_library 0 Sample.free_world 1 false
    [lit "main"] = Ret [Sample.record_free]
  /\ @format_message Sample.sample_console Sample.record_free true
     = Raise TypeError
  /\ @_show_last_n Sample.free_library Sample.sample_console 0
       Sample.free_world [lit "main"] 1 false = Raise TypeError.
Proof. repeat split; vm_compute; reflexivity. Qed.

(** The sort of the backfill cannot order a record with a naive timestamp
    and one with an aware timestamp: it raises TypeError. *)
Example mixed_timestamps_break_the_sort :
  sort_messages
    [Sample.msg_prefixed;
     Sample.record_of "a" 1;
     {| timestamp := Sample.stamp_naive; role := lit "user";
        agent := lit "main"; session_id := lit "s1"; model := JNull;
        provider := JNull; text := lit "hi"; cost := JNull;
        stop_reason := JNull; raw := JDict Sample.doc_naive |}]
  = Raise TypeError.
Proof. reflexivity. Qed.

(** * Further properties of the code *)

(** ** parse.py *)

Lemma lstrip_head (s : str) :
  lstrip s = [] \/ exists c t, lstrip s = c :: t /\ isspace c = false.
Proof.
  induction s as [|c s IH]; simpl; [left; reflexivity|].
  destruct (isspace c) eqn:E; [exact IH|].
  right. exists c, s. auto.
Qed.

Lemma rstrip_cons_kept (c : char) (t : str) :
  isspace c = false -> rstrip (c :: t) = c :: rstrip t.
Proof. intros E. simpl. rewrite E. destruct (rstrip t); reflexivity. Qed.

Lemma rstrip_idempotent (s : str) : rstrip (rstrip s) = rstrip s.
Proof.
  induction s as [|c s IH]; simpl; [reflexivity|].
  destruct (rstrip s) as [|d r] eqn:E.
  - destruct (isspace c) eqn:Ec; simpl; [reflexivity|]. rewrite Ec; reflexivity.
  - change (rstrip (c :: d :: r) = c :: d :: r).
    simpl. simpl in IH. rewrite IH. reflexivity.
Qed.

Lemma strip_idempotent (s : str) : strip (strip s) = strip s.
Proof.
  unfold strip. destruct (lstrip_head s) as [E | [c [t [E Hc]]]]; rewrite E.
  - reflexivity.
  - rewrite (@rstrip_cons_kept c t Hc). simpl lstrip. rewrite Hc.
    rewrite <- (@rstrip_cons_kept c t Hc). apply rstrip_idempotent.
Qed.

Section ParserRecords.
Context `{L : Library}.
Variables (now : Z) (line agent session_id : str).

(** What every record [parse_line] returns satisfies: its text is not
    empty and has no white space at either end, its role is "user" or
    "assistant", its agent and session are the arguments, and its raw
    payload is the decoded line. *)
Theorem parse_line_record_invariants (r : ParsedMessage) :
  parse_line now line agent session_id = Ret (Some r) ->
  text r <> []
  /\ strip (text r) = text r
  /\ (role r = lit "user" \/ role r = lit "assistant")
  /\ Parse.agent r = agent
  /\ Parse.session_id r = session_id
  /\ json_loads line = Some (raw r).
Proof.
  unfold parse_line.
  destruct (json_loads line) as [[| | | | |obj]|]; try discriminate.
  destruct (negb _); [discriminate|].
  destruct (dict_get obj (lit "message") (JDict [])) as [| | | | |msg];
    try discriminate.
  destruct (wanted_role (dict_get msg (lit "role") (JStr []))) eqn:Hr;
    [simpl | discriminate].
  unfold extract_text.
  destruct (py_iter _) as [blocks|]; [simpl | discriminate].
  destruct (py_join [NL] (text_parts blocks)) as [joined|]; [simpl | discriminate].
  destruct (strip joined) as [|c t] eqn:Et; [discriminate|].
  destruct (usage_cost msg) as [cost|]; [simpl | discriminate].
  intros [= <-]. simpl.
  split; [discriminate|]. split; [rewrite <- Et; apply strip_idempotent|].
  split; [|auto].
  unfold wanted_role in Hr. apply orb_true_iff in Hr.
  destruct Hr as [Hr|Hr]; apply is_str_true in Hr; rewrite Hr; auto.
Qed.

(** When the decoded object has no usable timestamp (the field is not a
    string, or [fromisoformat] rejects it, the empty default included),
    the record is stamped with the current instant in UTC, which is
    aware. *)
Theorem parse_line_timestamp_fallback (obj : list (str * json))
  (r : ParsedMessage) :
  json_loads line = Some (JDict obj) ->
  (exists v, dict_lookup obj (lit "timestamp") = Some v
             /\ forall s, v <> JStr s)
  \/ fromisoformat
       (PyStr.replace 90%N (lit "+00:00")
          (str_of (dict_get obj (lit "timestamp") (JStr [])))) = None ->
  parse_line now line agent session_id = Ret (Some r) ->
  timestamp r = utc now /\ aware (timestamp r) = true.
Proof.
  intros Hl Hts. unfold parse_line. rewrite Hl.
  assert (Hp : parse_timestamp now obj = utc now).
  { unfold parse_timestamp. destruct Hts as [[v [Hv Hns]] | Hf].
    - rewrite (dict_get_lookup _ _ _ Hv).
      destruct v; try reflexivity. exfalso; eapply Hns; reflexivity.
    - destruct (dict_get obj (lit "timestamp") (JStr [])); try reflexivity.
      simpl in Hf. rewrite Hf. reflexivity. }
  destruct (negb _); [discriminate|].
  destruct (dict_get obj (lit "message") (JDict [])); try discriminate.
  destruct (negb _); [discriminate|].
  destruct (extract_text d) as [[|c t]|]; simpl; try discriminate.
  destruct (usage_cost d); simpl; [|discriminate].
  intros [= <-]. simpl. rewrite Hp. auto.
Qed.

(** A line that decodes to anything but an object (a list, a number, a
    string, true, false, null) makes [parse_line] raise AttributeError. *)
Theorem parse_line_raises_on_non_object (v : json) :
  json_loads line = Some v ->
  (forall obj, v <> JDict obj) ->
  parse_line now line agent session_id = Raise AttributeError.
Proof.
  intros Hl Hv. unfold parse_line. rewrite Hl.
  destruct v; try reflexivity. exfalso; eapply Hv; reflexivity.
Qed.

(** A user or assistant message whose content is null, a number or a
    boolean makes [parse_line] raise TypeError: the content is not
    iterable. *)
Theorem parse_line_raises_on_non_iterable_content
  (obj msg : list (str * json)) (v : json) :
  json_loads line = Some (JDict obj) ->
  dict_lookup obj (lit "type") = Some (JStr (lit "message")) ->
  dict_lookup obj (lit "message") = Some (JDict msg) ->
  wanted_role (dict_get msg (lit "role") (JStr [])) = true ->
  dict_lookup msg (lit "content") = Some v ->
  (v = JNull \/ (exists b, v = JBool b) \/ exists n, v = JNum n) ->
  parse_line now line agent session_id = Raise TypeError.
Proof.
  intros Hl Ht Hm Hr Hc Hv.
  rewrite (parse_line_message now line agent session_id Hl Ht Hm Hr).
  unfold extract_text. rewrite (dict_get_lookup _ _ _ Hc).
  destruct Hv as [-> | [[b ->] | [n ->]]]; reflexivity.
Qed.

Lemma all_strs_raises (parts : list json) (v : json) :
  In v parts -> (forall s, v <> JStr s) -> all_strs parts = Raise TypeError.
Proof.
  induction parts as [|p parts IH]; intros Hin Hv; [destruct Hin|].
  destruct Hin as [-> | Hin].
  - destruct v; try reflexivity. exfalso; eapply Hv; reflexivity.
  - simpl. destruct p; try reflexivity. rewrite (IH Hin Hv). reflexivity.
Qed.

Lemma text_parts_in (blocks : list json) (d : list (str * json)) :
  In (JDict d) blocks ->
  is_str (dict_get d (lit "type") JNull) (lit "text") = true ->
  In (dict_get d (lit "text") (JStr [])) (text_parts blocks).
Proof.
  induction blocks as [|b blocks IH]; intros Hin Ht; [destruct Hin|].
  destruct Hin as [-> | Hin].
  - simpl. rewrite Ht. left; reflexivity.
  - specialize (IH Hin Ht). simpl.
    destruct b as [| | | |?|d0]; try exact IH.
    + right; exact IH.
    + destruct (is_str (dict_get d0 (lit "type") JNull) (lit "text"));
        [right|]; exact IH.
Qed.

(** A block of type "text" whose text field is present and is not a
    string (null, say) makes [parse_line] raise TypeError at the join. *)
Theorem parse_line_raises_on_non_string_text
  (obj msg d : list (str * json)) (blocks : list json) (v : json) :
  json_loads line = Some (JDict obj) ->
  dict_lookup obj (lit "type") = Some (JStr (lit "message")) ->
  dict_lookup obj (lit "message") = Some (JDict msg) ->
  wanted_role (dict_get msg (lit "role") (JStr [])) = true ->
  dict_lookup msg (lit "content") = Some (JList blocks) ->
  In (JDict d) blocks ->
  dict_lookup d (lit "type") = Some (JStr (lit "text")) ->
  dict_lookup d (lit "text") = Some v ->
  (forall s, v <> JStr s) ->
  parse_line now line agent session_id = Raise TypeError.
Proof.
  intros Hl Ht Hm Hr Hc Hin Hty Htx Hv.
  rewrite (parse_line_message now line agent session_id Hl Ht Hm Hr).
  unfold extract_text, py_join. rewrite (dict_get_lookup _ _ _ Hc). simpl.
  rewrite (@all_strs_raises _ v); [reflexivity | | exact Hv].
  rewrite <- (dict_get_lookup d (lit "text") (JStr []) Htx).
  apply text_parts_in; [exact Hin|].
  rewrite (dict_get_lookup _ _ _ Hty). apply is_str_true. reflexivity.
Qed.

Lemma text_parts_no_text (blocks : list json) :
  Forall (fun b => match b with
                   | JDict d =>
                       is_str (dict_get d (lit "type") JNull) (lit "text")
                       = false
                   | JStr _ => False
                   | _ => True
                   end) blocks ->
  text_parts blocks = [].
Proof.
  induction 1 as [|b blocks Hb _ IH]; simpl; [reflexivity|].
  destruct b; try exact IH; [destruct Hb | rewrite Hb; exact IH].
Qed.

(** A message none of whose content blocks is of type "text" (a turn
    made of tool calls, say) gives the absent result. *)
Theorem parse_line_drops_message_without_text
  (obj msg : list (str * json)) (blocks : list json) :
  json_loads line = Some (JDict obj) ->
  dict_lookup obj (lit "message") = Some (JDict msg) ->
  dict_lookup msg (lit "content") = Some (JList blocks) ->
  Forall (fun b => match b with
                   | JDict d =>
                       is_str (dict_get d (lit "type") JNull) (lit "text")
                       = false
                   | JStr _ => False
                   | _ => True
                   end) blocks ->
  parse_line now line agent session_id = Ret None.
Proof.
  intros Hl Hm Hc Hb. unfold parse_line. rewrite Hl.
  destruct (negb _); [reflexivity|].
  rewrite (dict_get_lookup _ _ _ Hm).
  destruct (negb _); [reflexivity|].
  unfold extract_text, py_join. rewrite (dict_get_lookup _ _ _ Hc). simpl.
  rewrite (text_parts_no_text Hb). reflexivity.
Qed.

(** On a message of the documented shape (content a list of objects
    whose text fields are strings, usage absent or an object whose cost is
    absent or an object) [parse_line] raises nothing: it returns the
    absent result when the stripped text is empty and otherwise a record
    with that text and the cost total, if any. *)
Theorem parse_line_total_on_wire_format
  (obj msg : list (str * json)) (blocks : list json) :
  json_loads line = Some (JDict obj) ->
  dict_lookup obj (lit "type") = Some (JStr (lit "message")) ->
  dict_lookup obj (lit "message") = Some (JDict msg) ->
  wanted_role (dict_get msg (lit "role") (JStr [])) = true ->
  dict_lookup msg (lit "content") = Some (JList blocks) ->
  Forall (fun b => exists d,
              b = JDict d
              /\ exists s, dict_get d (lit "text") (JStr []) = JStr s)
         blocks ->
  (dict_lookup msg (lit "usage") = None
   \/ exists usage, dict_lookup msg (lit "usage") = Some (JDict usage)
      /\ (dict_lookup usage (lit "cost") = None
          \/ exists c, dict_lookup usage (lit "cost") = Some (JDict c))) ->
  exists cost,
    usage_cost msg = Ret cost
    /\ parse_line now line agent session_id =
         Ret (match strip (PyStr.join [NL] (block_texts blocks)) with
              | [] => None
              | text =>
                  Some (make_message now obj msg agent session_id text cost)
              end).
Proof.
  intros Hl Ht Hm Hr Hc Hb Hu.
  rewrite (parse_line_message now line agent session_id Hl Ht Hm Hr).
  rewrite (block_list_content_text msg Hc Hb). simpl.
  assert (Hcost : exists cost, usage_cost msg = Ret cost).
  { unfold usage_cost.
    destruct Hu as [Hu | [usage [Hu [Hco | [c Hco]]]]].
    - rewrite (dict_get_missing _ _ _ Hu). simpl. eauto.
    - rewrite (dict_get_lookup _ _ _ Hu). simpl.
      rewrite (dict_get_missing _ _ _ Hco). simpl. eauto.
    - rewrite (dict_get_lookup _ _ _ Hu). simpl.
      rewrite (dict_get_lookup _ _ _ Hco). simpl.
      destruct c; simpl; eauto. }
  destruct Hcost as [cost Hcost]. exists cost. split; [exact Hcost|].
  rewrite Hcost. simpl. destruct (strip _); reflexivity.
Qed.

(** A cost that is a number other than zero (and not the object the code
    expects) makes [parse_line] raise AttributeError on a message whose
    text is not empty. *)
Theorem parse_line_raises_on_numeric_cost
  (obj msg usage : list (str * json)) (n : number) (c : char) (t : str) :
  json_loads line = Some (JDict obj) ->
  dict_lookup obj (lit "type") = Some (JStr (lit "message")) ->
  dict_lookup obj (lit "message") = Some (JDict msg) ->
  wanted_role (dict_get msg (lit "role") (JStr [])) = true ->
  extract_text msg = Ret (c :: t) ->
  dict_lookup msg (lit "usage") = Some (JDict usage) ->
  dict_lookup usage (lit "cost") = Some (JNum n) ->
  truthy (JNum n) = true ->
  parse_line now line agent session_id = Raise AttributeError.
Proof.
  intros Hl Ht Hm Hr Htext Hu Hc Hn.
  rewrite (parse_line_message now line agent session_id Hl Ht Hm Hr).
  rewrite Htext. simpl. unfold usage_cost.
  rewrite (dict_get_lookup _ _ _ Hu). simpl.
  rewrite (dict_get_lookup _ _ _ Hc). rewrite Hn. reflexivity.
Qed.

End ParserRecords.

(** *** The parser at further sample inputs *)

Lemma parse_line_record_invariants_witness :
  @parse_line Sample.extra_library 0 Sample.line_full (lit "main") (lit "s1")
    = Ret (Some Sample.record_full)
  /\ text Sample.record_full <> []
  /\ strip (text Sample.record_full) = text Sample.record_full.
Proof.
  split; [reflexivity|].
  destruct (@parse_line_record_invariants Sample.extra_library 0
              Sample.line_full (lit "main") (lit "s1") Sample.record_full
              eq_refl) as [H1 [H2 _]].
  split; assumption.
Defined.

Lemma parse_line_timestamp_fallback_witness :
  @parse_line Sample.extra_library 42 Sample.line_no_timestamp
    (lit "main") (lit "s1") = Ret (Some Sample.record_no_timestamp)
  /\ timestamp Sample.record_no_timestamp = utc 42
  /\ aware (timestamp Sample.record_no_timestamp) = true.
Proof.
  split; [reflexivity|].
  apply (@parse_line_timestamp_fallback Sample.extra_library 42
           Sample.line_no_timestamp (lit "main") (lit "s1")
           Sample.doc_no_timestamp Sample.record_no_timestamp);
    [reflexivity | right; reflexivity | reflexivity].
Defined.

Lemma parse_line_raises_on_non_object_witness :
  @parse_line Sample.extra_library 0 Sample.line_list (lit "main") (lit "s1")
  = Raise AttributeError.
Proof.
  apply (@parse_line_raises_on_non_object Sample.extra_library 0
           Sample.line_list (lit "main") (lit "s1") Sample.doc_list);
    [reflexivity | intros obj; discriminate].
Defined.

Lemma parse_line_raises_on_non_iterable_content_witness :
  @parse_line Sample.extra_library 0 Sample.line_null_content
    (lit "main") (lit "s1") = Raise TypeError.
Proof.
  apply (@parse_line_raises_on_non_iterable_content Sample.extra_library 0
           Sample.line_null_content (lit "main") (lit "s1")
           Sample.doc_null_content
           [(lit "role", Sample.jstr "user"); (lit "content", JNull)] JNull);
    try reflexivity.
  left; reflexivity.
Defined.

Lemma parse_line_raises_on_non_string_text_witness :
  @parse_line Sample.extra_library 0 Sample.line_null_text
    (lit "main") (lit "s1") = Raise TypeError.
Proof.
  apply (@parse_line_raises_on_non_string_text Sample.extra_library 0
           Sample.line_null_text (lit "main") (lit "s1")
           Sample.doc_null_text
           [(lit "role", Sample.jstr "assistant");
            (lit "content", JList [JDict Sample.null_text_block])]
           Sample.null_text_block [JDict Sample.null_text_block] JNull);
    try reflexivity.
  - left; reflexivity.
  - intros s; discriminate.
Defined.

Lemma parse_line_drops_message_without_text_witness :
  @parse_line Sample.extra_library 0 Sample.line_tool_call
    (lit "main") (lit "s1") = Ret None.
Proof.
  apply (@parse_line_drops_message_without_text Sample.extra_library 0
           Sample.line_tool_call (lit "main") (lit "s1")
           Sample.doc_tool_call
           [(lit "role", Sample.jstr "assistant");
            (lit "content", JList [Sample.tool_call_block])]
           [Sample.tool_call_block]);
    try reflexivity.
  repeat constructor.
Defined.

Lemma parse_line_total_on_wire_format_witness :
  exists cost,
    usage_cost Sample.msg_full = Ret cost
    /\ @parse_line Sample.extra_library 0 Sample.line_full
         (lit "main") (lit "s1")
       = Ret (match strip (PyStr.join [NL]
                             (block_texts
                                [Sample.text_block " hello ";
                                 Sample.tool_call_block])) with
              | [] => None
              | text =>
                  Some (@make_message Sample.extra_library 0 Sample.doc_full
                          Sample.msg_full (lit "main") (lit "s1") text cost)
              end).
Proof.
  apply (@parse_line_total_on_wire_format Sample.extra_library 0
           Sample.line_full (lit "main") (lit "s1") Sample.doc_full
           Sample.msg_full
           [Sample.text_block " hello "; Sample.tool_call_block]);
    try reflexivity.
  - repeat constructor; eexists; (split; [reflexivity|]); eexists;
      reflexivity.
  - right. eexists. split; [reflexivity|]. right. eexists. reflexivity.
Defined.

Lemma parse_line_raises_on_numeric_cost_witness :
  @parse_line Sample.extra_library 0 Sample.line_numeric_cost
    (lit "main") (lit "s1") = Raise AttributeError.
Proof.
  apply (@parse_line_raises_on_numeric_cost Sample.extra_library 0
           Sample.line_numeric_cost (lit "main") (lit "s1")
           Sample.doc_numeric_cost Sample.msg_numeric_cost
           [(lit "cost", JNum (NFloat 1 2))] (NFloat 1 2) 104%N [105%N]);
    reflexivity.
Defined.

(** *** extract_session_id and the timestamp *)

Lemma split_hd (sep : char) (s : str) :
  exists rest,
    s = hd [] (PyStr.split sep s) ++ rest
    /\ ~ In sep (hd [] (PyStr.split sep s))
    /\ (rest = [] \/ exists r, rest = sep :: r).
Proof.
  induction s as [|c s IH]; simpl.
  - exists []. repeat split; auto.
  - destruct (N.eqb_spec c sep) as [->|Hne]; simpl.
    + exists (sep :: s). repeat split; auto. right; eauto.
    + destruct IH as [rest [E [Hn Hr]]].
      destruct (PyStr.split sep s) as [|l ls]; simpl in *.
      * exists rest. rewrite E at 1. repeat split; auto.
        intros [H|[]]; congruence.
      * exists rest. rewrite E at 1. repeat split; auto.
        intros [H|H]; [congruence | exact (Hn H)].
Qed.

Lemma split_hd_no_sep (sep : char) (s : str) :
  ~ In sep s -> hd [] (PyStr.split sep s) = s.
Proof.
  induction s as [|c s IH]; intros Hn; simpl; [reflexivity|].
  destruct (N.eqb_spec c sep) as [->|Hne];
    [exfalso; apply Hn; left; reflexivity|].
  assert (Hs : ~ In sep s) by (intros H; apply Hn; right; exact H).
  specialize (IH Hs).
  destruct (PyStr.split sep s); simpl in *; rewrite IH; reflexivity.
Qed.

Lemma split_hd_app (sep : char) (s rest : str) :
  ~ In sep s -> hd [] (PyStr.split sep (s ++ sep :: rest)) = s.
Proof.
  induction s as [|c s IH]; intros Hn; simpl.
  - rewrite N.eqb_refl. reflexivity.
  - destruct (N.eqb_spec c sep) as [->|Hne];
      [exfalso; apply Hn; left; reflexivity|].
    assert (Hs : ~ In sep s) by (intros H; apply Hn; right; exact H).
    specialize (IH Hs).
    destruct (PyStr.split sep (s ++ sep :: rest)); simpl in *;
      rewrite IH; reflexivity.
Qed.

(** The session identifier of a file name is the part before its first
    dot.  Every name splits into its identifier, which holds no dot, and
    a rest that is empty or starts with a dot; a name without a dot is
    its own identifier, and whatever follows the first dot does not
    matter, so a session file and its renamed copies share the
    identifier. *)
Theorem extract_session_id_is_name_before_first_dot (name : str) :
  (exists rest,
      name = extract_session_id name ++ rest
      /\ ~ In 46%N (extract_session_id name)
      /\ (rest = [] \/ exists r, rest = 46%N :: r))
  /\ (~ In 46%N name ->
      extract_session_id name = name
      /\ forall rest, extract_session_id (name ++ 46%N :: rest) = name).
Proof.
  unfold extract_session_id. split; [apply split_hd|].
  intros Hn. split.
  - apply split_hd_no_sep; exact Hn.
  - intros rest. apply split_hd_app; exact Hn.
Qed.

Lemma replace_absent (old : char) (new s : str) :
  ~ In old s -> PyStr.replace old new s = s.
Proof.
  induction s as [|c s IH]; intros Hn; simpl; [reflexivity|].
  destruct (N.eqb_spec c old) as [->|Hne];
    [exfalso; apply Hn; left; reflexivity|].
  rewrite IH; [reflexivity | intros H; apply Hn; right; exact H].
Qed.

Lemma replace_app (old : char) (new a b : str) :
  PyStr.replace old new (a ++ b)
  = PyStr.replace old new a ++ PyStr.replace old new b.
Proof.
  induction a as [|c a IH]; simpl; [reflexivity|].
  destruct (N.eqb c old); rewrite IH; [rewrite app_assoc|]; reflexivity.
Qed.

Section Timestamps.
Context `{L : Library}.

(** A timestamp written with the UTC marker "Z" at its end is read as the
    same text with the offset "+00:00" in its place; a timestamp without
    a "Z" is handed to [fromisoformat] as it is. *)
Theorem utc_marker_becomes_offset (now : Z) (obj : list (str * json))
  (ts : str) :
  ~ In 90%N ts ->
  (dict_lookup obj (lit "timestamp") = Some (JStr (ts ++ [90%N])) ->
   parse_timestamp now obj =
     match fromisoformat (ts ++ lit "+00:00") with
     | Some t => t
     | None => utc now
     end)
  /\ (dict_lookup obj (lit "timestamp") = Some (JStr ts) ->
      parse_timestamp now obj =
        match fromisoformat ts with
        | Some t => t
        | None => utc now
        end).
Proof.
  intros Hn. unfold parse_timestamp. split; intros Hl;
    rewrite (dict_get_lookup _ _ _ Hl).
  - rewrite replace_app, (@replace_absent _ _ _ Hn). reflexivity.
  - rewrite (@replace_absent _ _ _ Hn). reflexivity.
Qed.

End Timestamps.

(** ** paths.py *)

Lemma endswith_inv (suffix s : str) :
  endswith suffix s = true -> exists stem, s = stem ++ suffix.
Proof.
  unfold endswith. intros H. apply startswith_inv in H as [t Ht].
  exists (rev t). rewrite <- (rev_involutive s), Ht, rev_app_distr.
  rewrite rev_involutive. reflexivity.
Qed.

Lemma endswith_app (suffix stem : str) :
  endswith suffix (stem ++ suffix) = true.
Proof. unfold endswith. rewrite rev_app_distr. apply startswith_app. Qed.

Lemma contains_false (sub s : str) :
  contains sub s = false -> forall pre post, s <> pre ++ sub ++ post.
Proof.
  unfold contains. destruct (PyStr.find sub s) eqn:F; [discriminate|].
  intros _. apply find_none; exact F.
Qed.

(** The stable insertion sort, for any test. *)
Section SortAny.
Variables (A : Type) (before : A -> A -> bool).

Lemma insert_by_permutation (x : A) (l : list A) :
  Permutation (insert_by before x l) (x :: l).
Proof.
  induction l as [|y l IH]; simpl; [reflexivity|].
  destruct (before y x); [|reflexivity].
  rewrite IH. apply perm_swap.
Qed.

Lemma sort_by_permutation (l : list A) : Permutation (sort_by before l) l.
Proof.
  induction l as [|x l IH]; simpl; [reflexivity|].
  unfold sort_by in *. simpl. rewrite insert_by_permutation, IH.
  reflexivity.
Qed.

Hypothesis asym : forall a b, before a b = true -> before b a = false.
Hypothesis trans :
  forall a b c, before b a = false -> before c b = false ->
                before c a = false.

Lemma insert_by_ordered (x : A) (l : list A) :
  StronglySorted (fun a b => before b a = false) l ->
  StronglySorted (fun a b => before b a = false) (insert_by before x l).
Proof.
  induction l as [|y l IH]; intros Hs; simpl.
  - constructor; constructor.
  - inversion Hs as [|? ? Hs' Hall]; subst.
    destruct (before y x) eqn:E.
    + constructor; [apply IH; exact Hs'|].
      apply Forall_forall. intros z Hz.
      apply (Permutation_in _ (insert_by_permutation x l)) in Hz.
      destruct Hz as [<-|Hz]; [apply asym; exact E|].
      rewrite Forall_forall in Hall. apply Hall; exact Hz.
    + constructor; [exact Hs|].
      constructor; [exact E|].
      rewrite Forall_forall in Hall |- *. intros z Hz.
      eapply trans; [exact E | apply Hall; exact Hz].
Qed.

Lemma sort_by_ordered (l : list A) :
  StronglySorted (fun a b => before b a = false) (sort_by before l).
Proof.
  induction l as [|x l IH]; simpl; [constructor|].
  apply insert_by_ordered. exact IH.
Qed.

End SortAny.

Section SessionFiles.
Variables (w : World) (ag : str) (incl : bool).

(** Which files [get_session_files] lists: the entries of the sessions
    directory of the agent whose name ends in ".jsonl" and, unless
    deleted files are asked for, does not contain ".deleted.": no other
    path, and every such entry. *)
Theorem get_session_files_lists_session_logs (p : Path) :
  In p (get_session_files w ag incl) <->
  exists entries e stem,
    session_dir w ag = Some entries
    /\ In e entries
    /\ p = {| p_agent := ag; p_name := d_name e |}
    /\ d_name e = stem ++ lit ".jsonl"
    /\ (incl = true
        \/ forall pre post, d_name e <> pre ++ lit ".deleted." ++ post).
Proof.
  unfold get_session_files. split.
  - destruct (session_dir w ag) as [entries|]; [|intros []].
    intros Hin. apply in_map_iff in Hin as [e [<- Hin]].
    apply (Permutation_in _ (sort_by_permutation _ _)) in Hin.
    apply filter_In in Hin as [Hin Hf].
    apply andb_true_iff in Hf as [Hend Hdel].
    destruct (endswith_inv _ _ Hend) as [stem Hstem].
    exists entries, e, stem. repeat split; auto.
    destruct incl; [left; reflexivity|right].
    simpl in Hdel. apply negb_true_iff in Hdel.
    apply contains_false; exact Hdel.
  - intros [entries [e [stem [-> [Hin [-> [Hstem Hdel]]]]]]].
    apply in_map_iff. exists e. split; [reflexivity|].
    apply (Permutation_in _ (Permutation_sym (sort_by_permutation _ _))).
    apply filter_In. split; [exact Hin|].
    apply andb_true_iff. split.
    + rewrite Hstem. apply endswith_app.
    + destruct Hdel as [-> | Hdel]; [reflexivity|].
      destruct incl; [reflexivity|]. simpl. apply negb_true_iff.
      unfold contains.
      destruct (PyStr.find (lit ".deleted.") (d_name e)) eqn:F;
        [|reflexivity].
      exfalso. destruct (find_some _ _ F) as [pre [post [E _]]].
      exact (Hdel pre post E).
Qed.

(** The files are listed newest first: the list is a rearrangement of
    the entries kept, in which no entry comes before one modified
    later. *)
Theorem get_session_files_newest_first (entries : list DirEntry) :
  session_dir w ag = Some entries ->
  exists kept,
    get_session_files w ag incl
    = List.map (fun f => {| p_agent := ag; p_name := d_name f |}) kept
    /\ Permutation kept
         (filter (fun f =>
                    endswith (lit ".jsonl") (d_name f)
                    && (incl || negb (contains (lit ".deleted.") (d_name f))))
                 entries)
    /\ StronglySorted (fun a b => d_mtime b <= d_mtime a) kept.
Proof.
  intros Hd. unfold get_session_files. rewrite Hd.
  eexists. split; [reflexivity|]. split; [apply sort_by_permutation|].
  assert (H : forall l,
             StronglySorted
               (fun a b : DirEntry => (d_mtime b >? d_mtime a) = false) l ->
             StronglySorted (fun a b => d_mtime b <= d_mtime a) l).
  { induction 1 as [|a l _ IH Hall]; constructor; [exact IH|].
    rewrite Forall_forall in Hall |- *. intros z Hz.
    specialize (Hall z Hz). simpl in Hall. lia. }
  apply H.
  apply (@sort_by_ordered _ (fun y x : DirEntry => d_mtime y >? d_mtime x)).
  - intros a b Hab. lia.
  - intros a b c H1 H2. lia.
Qed.

End SessionFiles.

(** *** get_agents *)

Lemma ltb_asym (a b : str) :
  PyStr.ltb a b = true -> PyStr.ltb b a = false.
Proof.
  revert b; induction a as [|x a IH]; intros [|y b]; simpl; auto;
    try discriminate.
  destruct (N.ltb_spec x y), (N.ltb_spec y x), (N.eqb_spec x y),
           (N.eqb_spec y x); auto; try lia; try discriminate; congruence.
Qed.

Lemma ltb_negtrans (a b c : str) :
  PyStr.ltb b a = false -> PyStr.ltb c b = false -> PyStr.ltb c a = false.
Proof.
  revert b c; induction a as [|x a IH]; intros [|y b] [|z c]; simpl; auto;
    try discriminate.
  destruct (N.ltb_spec y x), (N.ltb_spec z y), (N.ltb_spec z x),
           (N.eqb_spec y x), (N.eqb_spec z y), (N.eqb_spec z x);
    subst; auto; try lia; try discriminate; try (intros; exfalso; lia).
  apply IH.
Qed.

(** [get_agents] returns the names of the entries of the agents
    directory that are directories holding a [sessions] directory, these
    and no other, in ascending order; nothing when the agents directory
    is missing. *)
Theorem get_agents_lists_agents_in_order
  (agents_dir : option (list AgentEntry)) :
  (forall name,
      In name (get_agents agents_dir) <->
      exists entries d,
        agents_dir = Some entries /\ In d entries /\ a_name d = name
        /\ a_is_dir d = true /\ a_has_sessions d = true)
  /\ StronglySorted (fun a b => PyStr.ltb b a = false)
       (get_agents agents_dir).
Proof.
  unfold get_agents. split.
  - intros name. split.
    + destruct agents_dir as [entries|]; [|intros []].
      intros Hin.
      apply (Permutation_in _ (sort_by_permutation _ _)) in Hin.
      apply in_map_iff in Hin as [d [Hn Hin]].
      apply filter_In in Hin as [Hin Hf].
      apply andb_true_iff in Hf as [H1 H2].
      exists entries, d. auto.
    + intros [entries [d [-> [Hin [Hn [H1 H2]]]]]].
      apply (Permutation_in _ (Permutation_sym (sort_by_permutation _ _))).
      apply in_map_iff. exists d. split; [exact Hn|].
      apply filter_In. split; [exact Hin|]. rewrite H1, H2. reflexivity.
  - destruct agents_dir as [entries|]; [|constructor].
    apply sort_by_ordered; [apply ltb_asym | apply ltb_negtrans].
Qed.

(** *** Session identifiers, the UTC marker and the listing at sample inputs *)

Lemma no_dot_in_sample_id : ~ In 46%N (lit "4f2a").
Proof.
  intros H. vm_compute in H.
  repeat (destruct H as [H|H]; [discriminate H|]). exact H.
Qed.

Lemma extract_session_id_is_name_before_first_dot_witness :
  extract_session_id (lit "4f2a") = lit "4f2a"
  /\ extract_session_id (lit "4f2a.jsonl") = lit "4f2a"
  /\ extract_session_id (lit "4f2a.jsonl.deleted.2026") = lit "4f2a".
Proof.
  destruct (extract_session_id_is_name_before_first_dot (lit "4f2a"))
    as [_ H].
  destruct (H no_dot_in_sample_id) as [H1 H2].
  split; [exact H1|]. split.
  - exact (H2 (lit "jsonl")).
  - exact (H2 (lit "jsonl.deleted.2026")).
Defined.

Lemma no_marker_in_sample_stamp : ~ In 90%N (lit "2026-01-01T10:00:00").
Proof.
  intros H. vm_compute in H.
  repeat (destruct H as [H|H]; [discriminate H|]). exact H.
Qed.

Lemma utc_marker_becomes_offset_witness :
  @parse_timestamp Sample.extra_library 0 Sample.doc_full = Sample.stamp_utc.
Proof.
  destruct (@utc_marker_becomes_offset Sample.extra_library 0 Sample.doc_full
              (lit "2026-01-01T10:00:00") no_marker_in_sample_stamp)
    as [H _].
  rewrite H; reflexivity.
Defined.

Lemma get_session_files_lists_session_logs_witness :
  In (Sample.log_path "new.jsonl")
     (get_session_files Sample.mixed_world (lit "main") false)
  /\ ~ In (Sample.log_path "gone.deleted.1.jsonl")
          (get_session_files Sample.mixed_world (lit "main") false)
  /\ ~ In (Sample.log_path "notes.txt")
          (get_session_files Sample.mixed_world (lit "main") true).
Proof.
  split; [|split].
  - apply (get_session_files_lists_session_logs Sample.mixed_world
             (lit "main") false (Sample.log_path "new.jsonl")).
    exists Sample.mixed_entries,
           {| d_name := lit "new.jsonl"; d_mtime := 3 |}, (lit "new").
    split; [reflexivity|]. split; [simpl; tauto|].
    split; [reflexivity|]. split; [reflexivity|].
    right. apply contains_false. reflexivity.
  - intros H. vm_compute in H.
    repeat (destruct H as [H|H]; [discriminate H|]). exact H.
  - intros H. vm_compute in H.
    repeat (destruct H as [H|H]; [discriminate H|]). exact H.
Defined.

Lemma get_session_files_newest_first_witness :
  get_session_files Sample.mixed_world (lit "main") true
  = [Sample.log_path "new.jsonl"; Sample.log_path "gone.deleted.1.jsonl";
     Sample.log_path "old.jsonl"]
  /\ exists kept,
       get_session_files Sample.mixed_world (lit "main") true
       = List.map (fun f => {| p_agent := lit "main"; p_name := d_name f |})
           kept
       /\ StronglySorted (fun a b => d_mtime b <= d_mtime a) kept.
Proof.
  split; [reflexivity|].
  destruct (@get_session_files_newest_first Sample.mixed_world (lit "main")
              true Sample.mixed_entries eq_refl) as [kept [E [_ S]]].
  exists kept. split; assumption.
Defined.

Example get_agents_sample :
  get_agents (Some Sample.agents_listing) = [lit "coder"; lit "main"].
Proof. reflexivity. Qed.

(** ** commands/tail.py: the text of the display line *)

Lemma replace_without (old : char) (new s : str) :
  ~ In old new -> ~ In old (PyStr.replace old new s).
Proof.
  intros Hn. induction s as [|c s IH]; simpl; [tauto|].
  destruct (N.eqb_spec c old) as [->|Hne].
  - intros H. apply in_app_or in H as [H|H]; [exact (Hn H) | exact (IH H)].
  - intros [H|H]; [exact (Hne H) | exact (IH H)].
Qed.

Lemma firstn_in {A} (n : nat) (l : list A) (x : A) :
  In x (firstn n l) -> In x l.
Proof.
  revert n; induction l as [|y l IH]; intros [|n]; simpl; try tauto.
  intros [H|H]; [left; exact H | right; exact (IH n H)].
Qed.

Lemma skipn_in {A} (n : nat) (l : list A) (x : A) :
  In x (skipn n l) -> In x l.
Proof.
  revert n; induction l as [|y l IH]; intros [|n]; simpl; try tauto.
  intros H; right; exact (IH n H).
Qed.

Lemma slice_to_length {A} (j : Z) (l : list A) :
  0 <= j -> Z.of_nat (length (slice_to j l)) = Z.min j (Z.of_nat (length l)).
Proof.
  intros Hj. unfold slice_to, clamp_index.
  destruct (Z.ltb_spec j 0); [lia|]. rewrite length_firstn. lia.
Qed.

(** Whatever the record and the width of the console, the text of the
    display line holds no newline and is at most [max(40, width - 50)]
    characters long, where a width of 0 counts as 120. *)
Theorem format_message_text_fits_one_line (width : Z) (msg : ParsedMessage) :
  ~ In NL (format_message_text width msg)
  /\ Z.of_nat (length (format_message_text width msg))
     <= Z.max 40 ((if width =? 0 then 120 else width) - 50).
Proof.
  unfold format_message_text, collapse_truncate.
  generalize (display_text msg) as t. intros t. cbv zeta.
  set (m := Z.max 40 ((if width =? 0 then 120 else width) - 50)).
  set (one := PyStr.replace NL (lit " " ++ [8629%N] ++ lit " ") t).
  assert (Hone : ~ In NL one).
  { apply replace_without. vm_compute.
    intros H. repeat (destruct H as [H|H]; [discriminate H|]). exact H. }
  destruct (Z.gtb_spec (Z.of_nat (length one)) m) as [Hgt|Hle].
  - split.
    + intros H. apply in_app_or in H as [H|[H|[]]]; [|discriminate H].
      apply Hone. unfold slice_to in H. exact (@firstn_in _ _ _ _ H).
    + rewrite length_app, Nat2Z.inj_add, slice_to_length by lia.
      simpl length. lia.
  - split; [exact Hone | lia].
Qed.

(** A text without a newline is displayed as it is when it fits, and
    otherwise cut to exactly the width allowed: its first characters
    followed by an ellipsis. *)
Theorem collapse_truncate_of_one_line (width : Z) (text : str) :
  ~ In NL text ->
  let max_width := Z.max 40 ((if width =? 0 then 120 else width) - 50) in
  (Z.of_nat (length text) <= max_width ->
   collapse_truncate width text = text)
  /\ (max_width < Z.of_nat (length text) ->
      collapse_truncate width text
      = firstn (Z.to_nat (max_width - 1)) text ++ [8230%N]
      /\ Z.of_nat (length (collapse_truncate width text)) = max_width).
Proof.
  intros Hn max_width. unfold collapse_truncate. cbv zeta.
  rewrite (@replace_absent NL _ text Hn). fold max_width.
  split; intros H.
  - destruct (Z.gtb_spec (Z.of_nat (length text)) max_width); [lia|].
    reflexivity.
  - destruct (Z.gtb_spec (Z.of_nat (length text)) max_width); [|lia].
    assert (E : slice_to (max_width - 1) text
                = firstn (Z.to_nat (max_width - 1)) text).
    { unfold slice_to, clamp_index.
      destruct (Z.ltb_spec (max_width - 1) 0); [lia|].
      f_equal. lia. }
    rewrite E. split; [reflexivity|].
    rewrite length_app, length_firstn. simpl length. lia.
Qed.

(** ** commands/tail.py: discovery *)

Lemma known_app (files : Registry) (q p : Path) (e : Source) :
  known (files ++ [(q, e)]) p = known files p || path_eqb q p.
Proof.
  unfold known. rewrite lookup_app.
  destruct (lookup files p); [reflexivity|].
  destruct (path_eqb q p); reflexivity.
Qed.

Lemma known_in (files : Registry) (p : Path) :
  known files p = true <-> In p (List.map fst files).
Proof.
  unfold known. induction files as [|[k v] files IH]; simpl.
  - split; [discriminate | tauto].
  - destruct (path_eqb k p) eqn:E.
    + apply path_eqb_eq in E. split; auto.
    + rewrite IH. split; [auto|]. intros [H|H]; [|exact H].
      subst k. rewrite path_eqb_refl in E. discriminate.
Qed.

Section Discovery.
Variable w : World.

(** One step of discovery: what is known afterwards. *)
Lemma scan_path_known_iff (ag : str) (files : Registry) (q p : Path) :
  known (scan_path w ag files q) p = true
  <-> known files p = true \/ (q = p /\ exists c, file_text w p = Some c).
Proof.
  unfold scan_path.
  destruct (known files q) eqn:Kq.
  - split; [auto|]. intros [H|[<- _]]; assumption.
  - destruct (file_text w q) as [c|] eqn:F.
    + rewrite known_app, orb_true_iff, path_eqb_eq.
      split; (intros [H|H]; [left; exact H|right]).
      * subst q. split; [reflexivity | eauto].
      * apply H.
    + split; [auto|]. intros [H|[<- [c Hc]]]; [exact H | congruence].
Qed.

Lemma scan_paths_known_iff (ag : str) (paths : list Path) (files : Registry)
  (p : Path) :
  known (fold_left (scan_path w ag) paths files) p = true
  <-> known files p = true \/ (In p paths /\ exists c, file_text w p = Some c).
Proof.
  revert files; induction paths as [|q paths IH]; intros files; simpl.
  - tauto.
  - rewrite IH, scan_path_known_iff. intuition (subst; auto).
Qed.

Lemma scan_registry_known_iff (incl : bool) (ags : list str)
  (files : Registry) (p : Path) :
  known (scan_registry w ags incl files) p = true
  <-> known files p = true
      \/ (exists ag, In ag ags /\ In p (get_session_files w ag incl))
         /\ exists c, file_text w p = Some c.
Proof.
  unfold scan_registry. revert files.
  induction ags as [|ag ags IH]; intros files; simpl.
  - split; [auto|]. intros [H|[[ag [[] _]] _]]. exact H.
  - rewrite IH. unfold scan_agent. rewrite scan_paths_known_iff.
    split.
    + intros [[H|[H R]]|[[a [Ha Hp]] R]]; auto.
      * right. split; [exists ag; auto | exact R].
      * right. split; [exists a; auto | exact R].
    + intros [H|[[a [[<-|Ha] Hp]] R]]; auto.
      right. split; [exists a; auto | exact R].
Qed.

(** After discovery the registry holds a source for a path exactly when
    it held one before, or the path is listed for one of the agents of
    the tailer and its file could be opened: a listed file that cannot be
    opened is left out, and is tried again by the next discovery. *)
Theorem scan_files_registers_readable_listed_files (t : SessionTailer)
  (p : Path) :
  known (_files (_scan_files w t)) p = true
  <-> known (_files t) p = true
      \/ (exists ag, In ag (agents t)
                     /\ In p (get_session_files w ag (include_deleted t)))
         /\ exists content, file_text w p = Some content.
Proof. simpl. apply scan_registry_known_iff. Qed.

(** Discovery adds to the end of the registry. *)
Lemma scan_path_appends (ag : str) (files : Registry) (q : Path) :
  exists added,
    scan_path w ag files q = files ++ added
    /\ (NoDup (List.map fst files) ->
        NoDup (List.map fst (files ++ added)))
    /\ Forall (fun kv =>
                 exists content,
                   file_text w (fst kv) = Some content
                   /\ snd kv = ({| h_path := fst kv;
                                   h_pos := length content |},
                                ag, extract_session_id (p_name (fst kv))))
         added.
Proof.
  unfold scan_path. destruct (known files q) eqn:K.
  - exists []. rewrite app_nil_r. auto.
  - destruct (file_text w q) as [c|] eqn:F.
    + eexists. split; [reflexivity|]. split.
      * intros Hnd. rewrite map_app. simpl.
        apply NoDup_app; [exact Hnd | repeat constructor; simpl; tauto|].
        intros a Ha [<-|[]]. apply known_in in Ha. congruence.
      * repeat constructor. simpl. eauto.
    + exists []. rewrite app_nil_r. auto.
Qed.

Lemma scan_paths_appends (ag : str) (paths : list Path) (files : Registry) :
  (forall q, In q paths -> p_agent q = ag) ->
  exists added,
    fold_left (scan_path w ag) paths files = files ++ added
    /\ (NoDup (List.map fst files) ->
        NoDup (List.map fst (files ++ added)))
    /\ Forall (opened_at_end w) added.
Proof.
  revert files; induction paths as [|q paths IH]; intros files Hag; simpl.
  - exists []. rewrite app_nil_r. auto.
  - destruct (scan_path_appends ag files q) as [a1 [E1 [N1 F1]]].
    destruct (IH (scan_path w ag files q)) as [a2 [E2 [N2 F2]]];
      [intros q' Hq'; apply Hag; right; exact Hq'|].
    exists (a1 ++ a2). rewrite E2, E1, <- app_assoc.
    split; [reflexivity|]. split.
    + intros Hnd. rewrite app_assoc, <- E1. apply N2. rewrite E1.
      apply N1; exact Hnd.
    + apply Forall_app. split; [|exact F2].
      rewrite Forall_forall in F1 |- *. intros kv Hkv.
      destruct (F1 kv Hkv) as [c [Hc Hs]]. exists c.
      assert (Hq : fst kv = q).
      { revert E1 Hkv. unfold scan_path.
        destruct (known files q).
        - intros E. rewrite <- (app_nil_r files) in E at 1.
          apply app_inv_head in E. subst a1. intros [].
        - destruct (file_text w q).
          + intros E. apply app_inv_head in E. subst a1.
            intros [<-|[]]. reflexivity.
          + intros E. rewrite <- (app_nil_r files) in E at 1.
            apply app_inv_head in E. subst a1. intros []. }
      rewrite (Hag (fst kv)) by (left; symmetry; exact Hq).
      split; assumption.
Qed.

Lemma get_session_files_agent (ag : str) (incl : bool) (q : Path) :
  In q (get_session_files w ag incl) -> p_agent q = ag.
Proof.
  unfold get_session_files.
  destruct (session_dir w ag) as [entries|]; [|intros []].
  intros H. apply in_map_iff in H as [e [<- _]]. reflexivity.
Qed.

Lemma scan_registry_appends (incl : bool) (ags : list str)
  (files : Registry) :
  exists added,
    scan_registry w ags incl files = files ++ added
    /\ (NoDup (List.map fst files) ->
        NoDup (List.map fst (files ++ added)))
    /\ Forall (opened_at_end w) added.
Proof.
  unfold scan_registry. revert files.
  induction ags as [|ag ags IH]; intros files; simpl.
  - exists []. rewrite app_nil_r. auto.
  - destruct (@scan_paths_appends ag (get_session_files w ag incl) files)
      as [a1 [E1 [N1 F1]]]; [apply get_session_files_agent|].
    fold (scan_agent w incl files ag) in E1.
    destruct (IH (scan_agent w incl files ag)) as [a2 [E2 [N2 F2]]].
    exists (a1 ++ a2). rewrite E2, E1, <- app_assoc.
    split; [reflexivity|]. split.
    + intros Hnd. rewrite app_assoc, <- E1. apply N2. rewrite E1.
      apply N1; exact Hnd.
    + apply Forall_app. split; assumption.
Qed.

(** Discovery never removes or reorders a source: the registry afterwards
    is the registry before followed by the sources added.  Each source
    added is bound to the agent of its path and the session identifier of
    its file name, with the cursor at the end of the text of the file;
    and no path gets a second source. *)
Theorem scan_files_extends_the_registry (t : SessionTailer) :
  exists added,
    _files (_scan_files w t) = _files t ++ added
    /\ Forall (opened_at_end w) added
    /\ (NoDup (List.map fst (_files t)) ->
        NoDup (List.map fst (_files (_scan_files w t)))).
Proof.
  destruct (scan_registry_appends (include_deleted t) (agents t) (_files t))
    as [added [E [N F]]].
  exists added. simpl. rewrite E. auto.
Qed.

Lemma scan_path_fixed (ag : str) (files : Registry) (q : Path) :
  known files q = true \/ file_text w q = None ->
  scan_path w ag files q = files.
Proof.
  unfold scan_path. intros [K|F].
  - rewrite K. reflexivity.
  - rewrite F. destruct (known files q); reflexivity.
Qed.

Lemma scan_registry_fixed (incl : bool) (ags : list str) (files : Registry) :
  (forall ag q, In ag ags -> In q (get_session_files w ag incl) ->
                known files q = true \/ file_text w q = None) ->
  scan_registry w ags incl files = files.
Proof.
  unfold scan_registry. induction ags as [|ag ags IH]; intros H; simpl;
    [reflexivity|].
  assert (E : scan_agent w incl files ag = files).
  { unfold scan_agent.
    assert (Hp : forall q, In q (get_session_files w ag incl) ->
                           known files q = true \/ file_text w q = None)
      by (intros q Hq; apply (H ag); [left; reflexivity | exact Hq]).
    revert Hp. generalize (get_session_files w ag incl) as paths.
    induction paths as [|q paths IHp]; intros Hp; simpl; [reflexivity|].
    rewrite scan_path_fixed by (apply Hp; left; reflexivity).
    apply IHp. intros q' Hq'. apply Hp; right; exact Hq'. }
  rewrite E. apply IH. intros a q Ha Hq. apply (H a); [right; exact Ha|exact Hq].
Qed.

(** Discovery run again on an unchanged file system changes nothing but
    the time of the last scan: the registry is the same. *)
Theorem scan_files_twice_is_once (t : SessionTailer) :
  _files (_scan_files w (_scan_files w t)) = _files (_scan_files w t).
Proof.
  simpl. apply scan_registry_fixed. intros ag q Ha Hq.
  destruct (file_text w q) as [c|] eqn:F; [left|right; reflexivity].
  apply scan_registry_known_iff. right.
  split; [exists ag; auto | exists c; exact F].
Qed.

End Discovery.

(** ** commands/tail.py: the read pass *)

Lemma readlines_nonempty (s : str) : s <> [] -> readlines s <> [].
Proof.
  destruct s as [|c s]; [congruence|]. intros _. simpl.
  destruct (N.eqb c NL); [discriminate|].
  destruct (readlines s); discriminate.
Qed.

(** Text that ends with a newline is read line by line independently of
    what follows it. *)
Lemma readlines_app_terminated (a b : str) :
  readlines (a ++ [NL] ++ b) = readlines (a ++ [NL]) ++ readlines b.
Proof.
  induction a as [|c a IH]; simpl.
  - reflexivity.
  - destruct (N.eqb c NL); [simpl in IH; rewrite IH; reflexivity|].
    simpl in IH. rewrite IH.
    destruct (readlines (a ++ [NL])) eqn:E; [|reflexivity].
    exfalso. revert E. apply readlines_nonempty.
    destruct a; discriminate.
Qed.

Lemma skipn_terminated (k : nat) (pre : str) :
  (k <= length pre)%nat ->
  exists pre', skipn k (pre ++ [NL]) = pre' ++ [NL].
Proof.
  intros Hk. exists (skipn k pre). rewrite skipn_app.
  replace (k - length pre)%nat with 0%nat by lia. reflexivity.
Qed.

Section ReadPass.
Context `{L : Library} `{C : Console}.
Variable now : Z.

Lemma drain_handle_path (agent session_id : str) (lines : list str)
  (fh : Handle) :
  h_path (handle (drain now agent session_id fh lines)) = h_path fh.
Proof.
  revert fh; induction lines as [|l lines IH]; intros fh; simpl;
    [reflexivity|].
  destruct (strip l); [rewrite IH; reflexivity|].
  destruct (parse_line now (c :: s) agent session_id) as [[m|]|e];
    [destruct (format_message m true) as [line|e]| |]; simpl;
    try rewrite IH; reflexivity.
Qed.

(** Reading two runs of lines one after the other. *)
Lemma drain_app (agent session_id : str) (l1 l2 : list str) (fh : Handle) :
  raised (drain now agent session_id fh l1) = None ->
  let r1 := drain now agent session_id fh l1 in
  let r2 := drain now agent session_id (handle r1) l2 in
  drain now agent session_id fh (l1 ++ l2)
  = {| emitted := emitted r1 ++ emitted r2; handle := handle r2;
       raised := raised r2 |}.
Proof.
  cbv zeta. revert fh; induction l1 as [|l l1 IH]; intros fh; simpl.
  - intros _. destruct (drain now agent session_id fh l2); reflexivity.
  - destruct (strip l); [apply IH|].
    destruct (parse_line now (c :: s) agent session_id) as [[m|]|e]; simpl;
      [|apply IH|discriminate].
    destruct (format_message m true) as [line|e]; simpl; [|discriminate].
    intros H. rewrite (IH _ H). reflexivity.
Qed.

(** Reading a file in two passes gives what reading it in one pass gives,
    provided the text the first pass saw ended with a newline (or was
    empty) and the first pass raised nothing: the records of the two
    passes together are the records of the single pass, in the same
    order, and the cursor and the exception at the end are the same. *)
Theorem two_passes_read_as_one (agent session_id : str) (fh : Handle)
  (seen appended : str) :
  (h_pos fh <= length seen)%nat ->
  seen = [] \/ (exists pre, seen = pre ++ [NL]) ->
  let r1 := read_source now seen (fh, agent, session_id) in
  raised r1 = None ->
  let r2 := read_source now (seen ++ appended)
              (handle r1, agent, session_id) in
  read_source now (seen ++ appended) (fh, agent, session_id)
  = {| emitted := emitted r1 ++ emitted r2; handle := handle r2;
       raised := raised r2 |}.
Proof.
  intros Hpos Hterm r1 Hr1 r2. subst r1 r2. unfold read_source in *.
  assert (Hsplit : readlines (skipn (h_pos fh) (seen ++ appended))
                   = readlines (skipn (h_pos fh) seen) ++ readlines appended).
  { rewrite skipn_app.
    replace (h_pos fh - length seen)%nat with 0%nat by lia. simpl skipn.
    destruct (Nat.eq_dec (h_pos fh) (length seen)) as [E|NE].
    - rewrite E, skipn_all. reflexivity.
    - destruct Hterm as [->|[pre ->]]; [simpl in *; lia|].
      rewrite length_app in *. simpl in *.
      destruct (@skipn_terminated (h_pos fh) pre) as [pre' ->]; [lia|].
      rewrite <- app_assoc. apply readlines_app_terminated. }
  rewrite Hsplit.
  rewrite (@drain_app agent session_id _ (readlines appended) fh Hr1).
  cbv zeta.
  rewrite (@drain_position L C now agent session_id _ fh Hr1),
    readlines_concat, length_skipn.
  replace (h_pos fh + (length seen - h_pos fh))%nat with (length seen)
    by lia.
  rewrite skipn_length_app. reflexivity.
Qed.

Variable w : World.

Lemma read_source_further (content : str) (src : Source) :
  let r := read_source now content src in
  h_path (handle r) = h_path (fst (fst src))
  /\ (h_pos (fst (fst src)) <= h_pos (handle r))%nat
  /\ (raised r = None -> (length content <= h_pos (handle r))%nat).
Proof.
  destruct src as [[fh ag] sid]. cbv zeta. unfold read_source. simpl fst.
  split; [apply drain_handle_path|]. split; [apply drain_monotone|].
  intros H.
  rewrite (@drain_position L C now ag sid _ fh H), readlines_concat,
    length_skipn.
  lia.
Qed.

Lemma read_pass_sources (files : Registry) :
  Forall2 read_further files (snd (fst (read_pass now w files)))
  /\ (snd (read_pass now w files) = None ->
      Forall (nothing_unread w) (snd (fst (read_pass now w files)))).
Proof.
  induction files as [|[p src] files [IH1 IH2]]; simpl.
  - split; [constructor | intros _; constructor].
  - set (content := match file_text w (h_path (fst (fst src))) with
                    | Some c => c
                    | None => []
                    end).
    destruct (read_source_further content src) as [Hp [Hm He]].
    cbv zeta in Hp, Hm, He.
    assert (Hf : read_further (p, src)
                   (p, (handle (read_source now content src),
                        snd (fst src), snd src))).
    { unfold read_further; simpl. auto. }
    destruct (raised (read_source now content src)) as [e|] eqn:R.
    + simpl. split; [|discriminate].
      constructor; [exact Hf|].
      clear. induction files as [|[q s] files IH]; constructor; [|exact IH].
      unfold read_further; auto.
    + destruct (read_pass now w files) as [[ms rest'] e'] eqn:P. simpl in *.
      split; [constructor; assumption|].
      intros ->. constructor; [|apply IH2; reflexivity].
      unfold nothing_unread. simpl. rewrite Hp. intros c Hc.
      assert (Ec : content = c) by (unfold content; rewrite Hc; reflexivity).
      rewrite <- Ec. apply He; reflexivity.
Qed.

Lemma read_source_nothing_unread (src : Source) :
  (forall content,
      file_text w (h_path (fst (fst src))) = Some content ->
      (length content <= h_pos (fst (fst src)))%nat) ->
  read_source now
    match file_text w (h_path (fst (fst src))) with
    | Some c => c
    | None => []
    end src
  = {| emitted := []; handle := fst (fst src); raised := None |}.
Proof.
  destruct src as [[fh ag] sid]. simpl fst. intros Hx. unfold read_source.
  destruct (file_text w (h_path fh)) as [c|].
  - rewrite skipn_all2 by (apply Hx; reflexivity). reflexivity.
  - rewrite skipn_nil. reflexivity.
Qed.

Lemma read_pass_nothing_unread (files : Registry) :
  Forall (nothing_unread w) files ->
  read_pass now w files = ([], files, None).
Proof.
  induction 1 as [|[p src] files Hx _ IH]; [reflexivity|].
  cbn [read_pass]. cbv zeta.
  rewrite (read_source_nothing_unread src Hx). cbn [raised emitted handle].
  rewrite IH. destruct src as [[fh ag] sid]. reflexivity.
Qed.

(** A read pass keeps every source: the registry afterwards holds the
    same paths in the same order, each bound to the same file, agent and
    session as before, and no cursor has moved back.  This holds as well
    for a pass that an exception of the parser ends. *)
Theorem read_pass_keeps_sources (files files' : Registry)
  (ms : list ParsedMessage) (e : option exn) :
  read_pass now w files = (ms, files', e) ->
  List.map fst files' = List.map fst files
  /\ Forall2 read_further files files'.
Proof.
  intros H. destruct (read_pass_sources files) as [F _].
  rewrite H in F. simpl in F. split; [|exact F].
  clear H. induction F as [|a b l l' [Hk _] _ IH]; simpl;
    [reflexivity|].
  rewrite Hk, IH. reflexivity.
Qed.

Lemma strip_blank (s : str) : forallb isspace s = true -> strip s = [].
Proof.
  unfold strip. induction s as [|c s IH]; simpl; [reflexivity|].
  intros H. apply andb_true_iff in H as [Hc Hs]. rewrite Hc. exact (IH Hs).
Qed.

Lemma readlines_blank (s : str) :
  forallb isspace s = true ->
  Forall (fun l => forallb isspace l = true) (readlines s).
Proof.
  induction s as [|c s IH]; simpl; [constructor|].
  intros H. apply andb_true_iff in H as [Hc Hs]. specialize (IH Hs).
  destruct (N.eqb c NL).
  - constructor; [simpl; rewrite Hc; reflexivity | exact IH].
  - destruct (readlines s) as [|l ls]; constructor.
    + simpl; rewrite Hc; reflexivity.
    + constructor.
    + inversion IH; subst. simpl. rewrite Hc. assumption.
    + inversion IH; subst. assumption.
Qed.

Lemma drain_blank (agent session_id : str) (lines : list str) (fh : Handle) :
  Forall (fun l => forallb isspace l = true) lines ->
  drain now agent session_id fh lines
  = {| emitted := [];
       handle := {| h_path := h_path fh;
                    h_pos := h_pos fh + length (concat lines) |};
       raised := None |}.
Proof.
  intros H. revert fh. induction H as [|l lines Hl _ IH]; intros fh; simpl.
  - rewrite Nat.add_0_r. destruct fh; reflexivity.
  - rewrite (strip_blank _ Hl), IH. simpl. rewrite length_app.
    do 2 f_equal. lia.
Qed.

End ReadPass.

(** Blank text is skipped without the parser being asked: when the text
    appended to a file consists of whitespace only, a pass prints
    nothing, raises nothing and moves the cursor to the end of the file,
    whatever the parser and the renderer would do with any line. *)
Theorem blank_text_is_skipped (L : Library) (C : Console) (now : Z)
  (agent session_id : str) (fh : Handle) (content appended : str) :
  h_pos fh = length content ->
  forallb isspace appended = true ->
  @read_source L C now (content ++ appended) (fh, agent, session_id)
  = {| emitted := [];
       handle := {| h_path := h_path fh;
                    h_pos := length (content ++ appended) |};
       raised := None |}.
Proof.
  intros Hp Hb. unfold read_source. rewrite Hp, skipn_length_app.
  rewrite (@drain_blank L C now agent session_id (readlines appended) fh
             (readlines_blank _ Hb)).
  rewrite readlines_concat, length_app, Hp. reflexivity.
Qed.

(** No message is printed twice: after a pass that raised nothing, a
    further pass over the same files, at whatever time, prints nothing
    and leaves every cursor where it is. *)
Theorem second_pass_prints_nothing (L : Library) (C : Console)
  (now now' : Z) (w : World) (files files' : Registry)
  (ms : list ParsedMessage) :
  @read_pass L C now w files = (ms, files', None) ->
  @read_pass L C now' w files' = ([], files', None).
Proof.
  intros H. destruct (@read_pass_sources L C now w files) as [_ F].
  rewrite H in F. simpl in F.
  apply read_pass_nothing_unread, F. reflexivity.
Qed.

(** ** commands/tail.py: a cycle of the loop *)



(** ** commands/tail.py: the backfill *)

Lemma split_pieces (sep : char) (s : str) :
  Forall (fun l => ~ In sep l) (PyStr.split sep s).
Proof.
  induction s as [|c s IH]; simpl.
  - repeat constructor. tauto.
  - destruct (N.eqb_spec c sep) as [->|Hne].
    + constructor; [simpl; tauto | exact IH].
    + destruct (PyStr.split sep s) as [|l ls]; [repeat constructor|].
      * simpl. intros [H|[]]. exact (Hne H).
      * inversion IH; subst. constructor; [|assumption].
        intros [H|H]; [exact (Hne H) | auto].
Qed.

Section BackfillLines.
Context `{L : Library} `{C : Console}.
Variables (now : Z) (w : World).

(** [_tail_lines] returns at most [max_lines] lines, none of which holds
    a newline, and no line at all for a file that cannot be opened. *)
Theorem tail_lines_within_budget (path : Path) (max_lines : Z) :
  0 < max_lines ->
  Z.of_nat (length (_tail_lines w path max_lines)) <= max_lines
  /\ Forall (fun l => ~ In NL l) (_tail_lines w path max_lines)
  /\ (file_bytes w path = None -> _tail_lines w path max_lines = []).
Proof.
  intros Hm. unfold _tail_lines.
  destruct (file_bytes w path) as [bytes|];
    [|split; [simpl; lia | split; [constructor | reflexivity]]].
  cbv zeta. rewrite slice_from_last by exact Hm.
  split; [rewrite length_skipn; lia|]. split; [|discriminate].
  apply Forall_forall. intros l Hl. apply skipn_in in Hl.
  revert l Hl. apply Forall_forall. apply split_pieces.
Qed.

(** [_tail_lines] looks at the last [max_lines * 2048] bytes only: two
    files that end with the same bytes of that number give the same
    lines, whatever comes before. *)
Theorem tail_lines_reads_trailing_bytes_only (w' : World) (path : Path)
  (max_lines : Z) (before before' region : list byte) :
  file_bytes w path = Some (before ++ region) ->
  file_bytes w' path = Some (before' ++ region) ->
  Z.of_nat (length region) = max_lines * 2048 ->
  _tail_lines w path max_lines = _tail_lines w' path max_lines.
Proof.
  intros H1 H2 Hr. unfold _tail_lines. rewrite H1, H2. cbv zeta.
  rewrite !length_app, !Nat2Z.inj_add, <- Hr.
  rewrite !Z.min_r by lia.
  replace (Z.to_nat (Z.max 0 (Z.of_nat (length before)
                              + Z.of_nat (length region)
                              - Z.of_nat (length region))))
    with (length before) by lia.
  replace (Z.to_nat (Z.max 0 (Z.of_nat (length before')
                              + Z.of_nat (length region)
                              - Z.of_nat (length region))))
    with (length before') by lia.
  rewrite !skipn_length_app. reflexivity.
Qed.

Lemma parse_lines_raises (agent session_id : str) (lines : list str)
  (line : str) (e : exn) :
  In line lines ->
  parse_line now line agent session_id = Raise e ->
  exists e', parse_lines now agent session_id lines = Raise e'.
Proof.
  induction lines as [|l lines IH]; [intros []|].
  intros [->|Hin] He; simpl.
  - rewrite He. simpl. eauto.
  - destruct (parse_line now l agent session_id) as [m|e0]; simpl; [|eauto].
    destruct (IH Hin He) as [e' ->]. simpl. eauto.
Qed.

Lemma collect_paths_raises (n : Z) (agent : str) (paths : list Path)
  (path : Path) :
  In path paths ->
  (exists e, parse_lines now agent (extract_session_id (p_name path))
               (_tail_lines w path (n * 3)) = Raise e) ->
  exists e', collect_paths now w n agent paths = Raise e'.
Proof.
  induction paths as [|q paths IH]; [intros []|].
  intros [->|Hin] He; simpl.
  - destruct He as [e ->]. simpl. eauto.
  - destruct (parse_lines now agent (extract_session_id (p_name q))
                (_tail_lines w q (n * 3))) as [ms|e0]; simpl; [|eauto].
    destruct (IH Hin He) as [e' ->]. simpl. eauto.
Qed.

Lemma collect_agents_raises (n : Z) (incl : bool) (ags : list str)
  (ag : str) :
  In ag ags ->
  (exists e, collect_paths now w n ag (get_session_files w ag incl)
             = Raise e) ->
  exists e', collect_agents now w n incl ags = Raise e'.
Proof.
  induction ags as [|a ags IH]; [intros []|].
  intros [->|Hin] He; simpl.
  - destruct He as [e ->]. simpl. eauto.
  - destruct (collect_paths now w n a (get_session_files w a incl))
      as [ms|e0]; simpl; [|eauto].
    destruct (IH Hin He) as [e' ->]. simpl. eauto.
Qed.

(** One line is enough to lose the whole backfill: when the parser raises
    on a line of the trailing region of any session file of any of the
    agents, [_show_last_n] raises and shows no message at all. *)
Theorem show_last_n_raises_when_a_line_raises (ags : list str) (n : Z)
  (incl : bool) (ag : str) (path : Path) (line : str) (e : exn) :
  In ag ags ->
  In path (get_session_files w ag incl) ->
  In line (_tail_lines w path (n * 3)) ->
  parse_line now line ag (extract_session_id (p_name path)) = Raise e ->
  exists e', _show_last_n now w ags n incl = Raise e'.
Proof.
  intros Ha Hp Hl He. unfold _show_last_n.
  destruct (@collect_agents_raises n incl ags ag Ha) as [e' ->];
    [|simpl; eauto].
  apply (@collect_paths_raises n ag _ path Hp).
  exact (@parse_lines_raises ag _ _ line e Hl He).
Qed.

(** The backfill cannot order records of which one has a timestamp
    without offset and another a timestamp with one: whenever the
    records collected hold both kinds, [_show_last_n] raises TypeError
    and shows no message. *)
Theorem show_last_n_raises_on_mixed_timestamps (ags : list str) (n : Z)
  (incl : bool) (all : list ParsedMessage) (a b : ParsedMessage) :
  collect_agents now w n incl ags = Ret all ->
  In a all -> aware (timestamp a) = true ->
  In b all -> aware (timestamp b) = false ->
  _show_last_n now w ags n incl = Raise TypeError.
Proof.
  intros Hc Ha Haw Hb Hna. unfold _show_last_n, sort_messages.
  rewrite Hc. simpl.
  assert (E : comparable all = false).
  { unfold comparable. apply orb_false_iff. split.
    - destruct (forallb (fun m => aware (timestamp m)) all) eqn:F;
        [|reflexivity].
      rewrite forallb_forall in F. rewrite (F b Hb) in Hna. discriminate.
    - destruct (forallb (fun m => negb (aware (timestamp m))) all) eqn:F;
        [|reflexivity].
      rewrite forallb_forall in F. specialize (F a Ha).
      rewrite Haw in F. discriminate. }
  rewrite E. reflexivity.
Qed.

End BackfillLines.

(** ** commands/tail.py: the command *)

Lemma get_agents_nil (agents_dir : option (list AgentEntry)) :
  get_agents agents_dir = []
  <-> forall entries d,
        agents_dir = Some entries -> In d entries ->
        a_is_dir d = true -> a_has_sessions d = false.
Proof.
  unfold get_agents. destruct agents_dir as [entries|].
  - split.
    + intros E entries' d [= <-] Hin Hd.
      destruct (a_has_sessions d) eqn:Hs; [|reflexivity]. exfalso.
      assert (Hx : In (a_name d)
                     (sort_by (fun y x => PyStr.ltb y x)
                        (List.map a_name
                           (filter (fun d => a_is_dir d && a_has_sessions d)
                              entries)))).
      { apply (Permutation_in _
                 (Permutation_sym (sort_by_permutation _ _))).
        apply in_map, filter_In. rewrite Hd, Hs. auto. }
      rewrite E in Hx. exact Hx.
    + intros H.
      assert (E : filter (fun d => a_is_dir d && a_has_sessions d) entries
                  = []).
      { induction entries as [|d entries IH]; simpl; [reflexivity|].
        destruct (a_is_dir d) eqn:Hd; simpl.
        - rewrite (H _ d eq_refl (or_introl eq_refl) Hd).
          apply IH. intros es d' [= <-] Hin. apply (H _ d' eq_refl).
          right; exact Hin.
        - apply IH. intros es d' [= <-] Hin. apply (H _ d' eq_refl).
          right; exact Hin. }
      rewrite E. reflexivity.
  - split; [intros _ entries d; discriminate | reflexivity].
Qed.

(** The command exits with status 1, before showing anything, exactly
    when no agent was named and the agents directory is missing or holds
    no directory with a [sessions] directory; it exits with no other
    status.  Agents that are named are taken as they are, whether or not
    they exist. *)
Theorem tail_exits_only_without_agents
  (agents_dir : option (list AgentEntry)) (ags : list str) (last_n : Z)
  (all_roles no_follow deleted : bool) :
  (tail agents_dir ags last_n all_roles no_follow deleted = SystemExit 1
   <-> ags = []
       /\ forall entries d,
            agents_dir = Some entries -> In d entries ->
            a_is_dir d = true -> a_has_sessions d = false)
  /\ (forall code,
        tail agents_dir ags last_n all_roles no_follow deleted
        = SystemExit code -> code = 1)
  /\ (ags <> [] ->
      forall other,
        tail agents_dir ags last_n all_roles no_follow deleted
        = tail other ags last_n all_roles no_follow deleted).
Proof.
  rewrite <- get_agents_nil. unfold tail. split; [|split].
  - destruct ags as [|a ags]; cbv zeta.
    + destruct (get_agents agents_dir) eqn:G.
      * split; auto.
      * split; [destruct no_follow; discriminate|].
        intros [_ H]; discriminate.
    + split; [destruct no_follow; discriminate|]. intros [H _]; discriminate.
  - intros code. cbv zeta.
    destruct (match ags with [] => get_agents agents_dir | _ => ags end).
    + intros [= <-]. reflexivity.
    + destruct no_follow; discriminate.
  - intros Hne other. destruct ags; [congruence | reflexivity].
Qed.

(** With [--no-follow] the command shows one backfill and never starts
    the live tail: the last [last_n] messages, the last 20 when [last_n]
    is 0, and nothing at all when [last_n] is negative.  The flag
    [--all-roles] changes nothing. *)
Theorem tail_no_follow_shows_one_backfill
  (agents_dir : option (list AgentEntry)) (ags : list str) (last_n : Z)
  (all_roles deleted : bool) :
  let agent_list :=
    match ags with [] => get_agents agents_dir | _ => ags end in
  agent_list <> [] ->
  tail agents_dir ags last_n all_roles true deleted
  = Steps (if last_n <? 0 then []
           else [ShowLast agent_list (if last_n =? 0 then 20 else last_n)
                   deleted]).
Proof.
  cbv zeta. unfold tail. cbv zeta.
  destruct (match ags with [] => get_agents agents_dir | _ => ags end)
    as [|a l]; [congruence|]. intros _.
  destruct (Z.gtb_spec last_n 0), (Z.eqb_spec last_n 0),
           (Z.ltb_spec last_n 0); try lia; reflexivity.
Qed.

(** *** The tailer, the backfill and the command at sample inputs *)

Lemma wide_text_one_line : ~ In NL Sample.wide_text.
Proof.
  intros H. apply repeat_spec in H. discriminate H.
Qed.

Lemma collapse_truncate_of_one_line_witness :
  collapse_truncate 80 Sample.wide_text
  = repeat 120%N 39 ++ [8230%N].
Proof.
  destruct (@collapse_truncate_of_one_line 80 Sample.wide_text
              wide_text_one_line) as [_ H].
  destruct H as [E _]; [vm_compute; reflexivity|].
  rewrite E. reflexivity.
Defined.

Example format_message_text_sample :
  format_message_text 0 Sample.msg_prefixed = lit "hello".
Proof. reflexivity. Qed.

Lemma scan_files_registers_readable_listed_files_witness :
  known (_files (_scan_files Sample.mixed_world Sample.fresh_tailer))
    (Sample.log_path "new.jsonl") = true.
Proof.
  apply (scan_files_registers_readable_listed_files Sample.mixed_world
           Sample.fresh_tailer (Sample.log_path "new.jsonl")).
  right. split.
  - exists (lit "main"). split; [left; reflexivity|].
    vm_compute. tauto.
  - exists []. reflexivity.
Defined.

Lemma scan_files_extends_the_registry_witness :
  NoDup (List.map fst
           (_files (_scan_files Sample.mixed_world Sample.fresh_tailer)))
  /\ length (_files (_scan_files Sample.mixed_world Sample.fresh_tailer))
     = 2%nat.
Proof.
  destruct (scan_files_extends_the_registry Sample.mixed_world
              Sample.fresh_tailer) as [added [_ [_ N]]].
  split; [apply N; constructor | reflexivity].
Defined.

Lemma two_passes_read_as_one_witness :
  let seen := Sample.line_naive ++ [NL] in
  let r := @read_source Sample.parser_library
             Sample.sample_console 0 (seen ++ seen)
             (Sample.handle_at_start, lit "main", lit "s1") in
  length (emitted r) = 2%nat /\ raised r = None.
Proof.
  cbv zeta.
  rewrite (@two_passes_read_as_one Sample.parser_library
             Sample.sample_console 0 (lit "main")
             (lit "s1") Sample.handle_at_start
             (Sample.line_naive ++ [NL]) (Sample.line_naive ++ [NL])).
  - split; reflexivity.
  - simpl. lia.
  - right. exists Sample.line_naive. reflexivity.
  - reflexivity.
Defined.

Lemma read_pass_keeps_sources_witness :
  List.map fst
    (snd (fst (@read_pass Sample.parser_library
                 Sample.sample_console 0 Sample.grown_world
                 Sample.one_source)))
  = [Sample.session_path].
Proof.
  destruct (@read_pass Sample.parser_library
              Sample.sample_console 0 Sample.grown_world
              Sample.one_source) as [[ms files'] e] eqn:P.
  destruct (@read_pass_keeps_sources Sample.parser_library
              Sample.sample_console 0
              Sample.grown_world Sample.one_source files' ms e P) as [K _].
  exact K.
Defined.

Lemma second_pass_prints_nothing_witness :
  @read_pass Sample.parser_library Sample.sample_console 7 Sample.grown_world
    [(Sample.session_path, Sample.source_at_end)]
  = ([], [(Sample.session_path, Sample.source_at_end)], None).
Proof.
  apply (@second_pass_prints_nothing Sample.parser_library
           Sample.sample_console 0 7
           Sample.grown_world Sample.one_source
           [(Sample.session_path, Sample.source_at_end)]
           (fst (fst (@read_pass Sample.parser_library
                        Sample.sample_console 0 Sample.grown_world
                        Sample.one_source)))).
  vm_compute. reflexivity.
Defined.

Lemma blank_text_is_skipped_witness :
  @read_source Sample.parser_library Sample.sample_console 0
    (Sample.ten_lines ++ Sample.blank_text) Sample.registered_source
  = {| emitted := [];
       handle := {| h_path := Sample.session_path;
                    h_pos := length (Sample.ten_lines ++ Sample.blank_text) |};
       raised := None |}.
Proof.
  apply (@blank_text_is_skipped Sample.parser_library
           Sample.sample_console 0 (lit "main")
           (lit "s1") (fst (fst Sample.registered_source))
           Sample.ten_lines Sample.blank_text); reflexivity.
Defined.


Lemma tail_lines_within_budget_witness :
  Z.of_nat (length (@_tail_lines Sample.parser_library Sample.long_world
                      Sample.session_path 3)) <= 3.
Proof.
  destruct (@tail_lines_within_budget Sample.parser_library
              Sample.long_world Sample.session_path 3) as [H _];
    [reflexivity | exact H].
Defined.

Lemma tail_lines_reads_trailing_bytes_only_witness :
  @_tail_lines Sample.parser_library Sample.long_world Sample.session_path 3
  = @_tail_lines Sample.parser_library Sample.region_world
      Sample.session_path 3.
Proof.
  apply (@tail_lines_reads_trailing_bytes_only Sample.parser_library
           Sample.long_world Sample.region_world Sample.session_path 3
           Sample.long_file_head [] Sample.long_file_region).
  - unfold Sample.long_file_head, Sample.long_file_region.
    rewrite firstn_skipn. reflexivity.
  - reflexivity.
  - vm_compute. reflexivity.
Defined.

Lemma show_last_n_raises_when_a_line_raises_witness :
  exists e, @_show_last_n Sample.extra_library
              Sample.sample_console 0 Sample.broken_world
              [lit "main"] 1 false = Raise e.
Proof.
  apply (@show_last_n_raises_when_a_line_raises Sample.extra_library
           Sample.sample_console 0
           Sample.broken_world [lit "main"] 1 false (lit "main")
           Sample.session_path Sample.line_list AttributeError).
  - left; reflexivity.
  - vm_compute. tauto.
  - vm_compute. tauto.
  - reflexivity.
Defined.

Lemma show_last_n_raises_on_mixed_timestamps_witness :
  @_show_last_n Sample.mixed_library
    Sample.sample_console 0 Sample.mixed_stamps_world
    [lit "main"] 5 false = Raise TypeError.
Proof.
  apply (@show_last_n_raises_on_mixed_timestamps Sample.mixed_library
           Sample.sample_console 0
           Sample.mixed_stamps_world [lit "main"] 5 false
           [Sample.record_full; Sample.record_naive]
           Sample.record_full Sample.record_naive).
  - vm_compute. reflexivity.
  - left; reflexivity.
  - reflexivity.
  - right; left; reflexivity.
  - reflexivity.
Defined.

Lemma tail_exits_only_without_agents_witness :
  tail (Some Sample.no_agents_listing) [] 5 false false false = SystemExit 1.
Proof.
  apply (tail_exits_only_without_agents (Some Sample.no_agents_listing) []
           5 false false false).
  split; [reflexivity|].
  intros entries d [= <-] [<-|[<-|[]]]; [discriminate | reflexivity].
Defined.

Lemma tail_no_follow_shows_one_backfill_witness :
  tail (Some Sample.agents_listing) [] 0 true true false
  = Steps [ShowLast [lit "coder"; lit "main"] 20 false]
  /\ tail None [lit "main"] (-3) false true false = Steps [].
Proof.
  split.
  - apply (@tail_no_follow_shows_one_backfill (Some Sample.agents_listing)
             [] 0 true false).
    vm_compute. discriminate.
  - apply (@tail_no_follow_shows_one_backfill None [lit "main"] (-3)
             false false).
    discriminate.
Defined.
